(** * oauth2c: the OAuth2 client core ([internal/oauth2])

    A shallow embedding of the package's two files: [request.go], with the
    [Request] record and its [AuthenticateClient], [Get] and [ParseJARM]
    methods, and the file of the flow, with [ClientConfig] and the functions
    [RequestAuthorization], [WaitForCallback] and [RequestToken].

    Conventions.
    - A Go map is a [gmap]; [url.Values] and [http.Header] are
      [gmap string (list string)].  Where the source writes to a map that
      may be [nil] ([Request.Form]) the field is an [option]: [None] is the
      [nil] map, reads of it yield nothing and writes to it panic.
    - A Go pointer that the source dereferences ([Request.URL]) is an
      [option]; dereferencing [None] is the run-time panic.
    - A function that may panic returns an [outcome]; a method on
      [*Request] returns the mutated [Request] next to its outcome, so the
      state at the moment of a panic stays visible.
    - Functions of other packages (net/url, net/http, encoding/json,
      go-jose, x509, shortuuid) are the fields of type classes: the theorems
      hold for every implementation of them. *)

From Stdlib Require Import Ascii String.
From stdpp Require Import gmap strings list fin_maps pretty.

Set Warnings "-clear-no-such-hyp".

Open Scope string_scope.

(** ** Errors *)

(** [Error] of the repository: the provider's structured error. *)
Record Error := mkError {
  ErrorCode : string;
  Description : string;
  Hint : string;
  TraceID : string
}.

(** The Go [error] values the core builds.  [ErrExt] is an error value
    produced by another package, returned as it is; the other constructors
    are the wrappers the source applies: [errors.New], [errors.Wrapf] and
    [fmt.Errorf] with [%w], [multierror.Append], and [&Error{...}]. *)
Inductive error :=
| ErrExt (description : string)
| ErrNew (msg : string)
| ErrWrap (cause : error) (msg : string)
| ErrMulti (first second : error)
| ErrProvider (e : Error).

(** The result of running code that may panic. *)
Inductive outcome (A : Type) :=
| Ret (a : A)
| Panic (msg : string).
Arguments Ret {A} a.
Arguments Panic {A} msg.

Definition nil_dereference : string :=
  "invalid memory address or nil pointer dereference".
Definition nil_map_write : string := "assignment to entry in nil map".
Definition index_out_of_range : string := "index out of range".

(** ** net/url *)

Abbreviation Values := (gmap string (list string)).

(** [Values.Get]: the first value of the key, or the empty string. *)
Definition Values_Get (v : Values) (key : string) : string :=
  match v !! key with
  | Some (x :: _) => x
  | _ => ""
  end.

(** [Values.Set]: replaces whatever the key held. *)
Definition Values_Set (v : Values) (key value : string) : Values :=
  <[key := [value]]> v.

(** [url.URL], with the fields the core reads or writes. *)
Record URL := mkURL {
  Scheme : string;
  Host : string;
  Path : string;
  RawQuery : string
}.

Definition set_RawQuery (u : URL) (q : string) : URL :=
  {| Scheme := Scheme u; Host := Host u; Path := Path u; RawQuery := q |}.

(** ** The Request *)

(** A decoded JSON value, the dynamic type behind [interface{}] in the
    claim map. *)
#[warnings="-register-all"]
Inductive JVal :=
| JStr (s : string)
| JNum (n : Z)
| JBool (b : bool)
| JNull
| JArr (items : list JVal)
| JObj (fields : list (string * JVal)).

Abbreviation Claims := (gmap string JVal).

(** [interface{}] key material and [*x509.Certificate]. *)
Class Material := {
  Key : Type;
  Certificate : Type
}.

Record Request `{Material} := mkRequest {
  Method : string;
  URL_ : option URL;
  Headers : Values;
  Form : option Values;
  JARM : Claims;
  Key_ : option Key;
  Cert : option Certificate
}.

Definition set_Method `{Material} (r : Request) (m : string) : Request :=
  {| Method := m; URL_ := URL_ r; Headers := Headers r;
     Form := Form r; JARM := JARM r; Key_ := Key_ r; Cert := Cert r |}.

Definition set_URL `{Material} (r : Request) (u : option URL) : Request :=
  {| Method := Method r; URL_ := u; Headers := Headers r;
     Form := Form r; JARM := JARM r; Key_ := Key_ r; Cert := Cert r |}.

Definition set_Headers `{Material} (r : Request) (h : Values) : Request :=
  {| Method := Method r; URL_ := URL_ r; Headers := h;
     Form := Form r; JARM := JARM r; Key_ := Key_ r; Cert := Cert r |}.

Definition set_Form `{Material} (r : Request) (f : option Values) : Request :=
  {| Method := Method r; URL_ := URL_ r; Headers := Headers r;
     Form := f; JARM := JARM r; Key_ := Key_ r; Cert := Cert r |}.

Definition set_JARM `{Material} (r : Request) (m : Claims) : Request :=
  {| Method := Method r; URL_ := URL_ r; Headers := Headers r;
     Form := Form r; JARM := m; Key_ := Key_ r; Cert := Cert r |}.

Definition set_Key `{Material} (r : Request) (k : option Key) : Request :=
  {| Method := Method r; URL_ := URL_ r; Headers := Headers r;
     Form := Form r; JARM := JARM r; Key_ := k; Cert := Cert r |}.

Definition set_Cert `{Material} (r : Request) (c : option Certificate) : Request :=
  {| Method := Method r; URL_ := URL_ r; Headers := Headers r;
     Form := Form r; JARM := JARM r; Key_ := Key_ r; Cert := c |}.

(** The zero value of [Request]. *)
Definition zero_Request `{Material} : Request :=
  {| Method := ""; URL_ := None; Headers := ∅; Form := None; JARM := ∅;
     Key_ := None; Cert := None |}.

(** [Values.Get] on a possibly nil map. *)
Definition Form_Get (f : option Values) (key : string) : string :=
  match f with
  | Some v => Values_Get v key
  | None => ""
  end.

(** [Values.Set] on a possibly nil map: writing to nil panics. *)
Definition Form_Set (f : option Values) (key value : string)
  : outcome (option Values) :=
  match f with
  | Some v => Ret (Some (Values_Set v key value))
  | None => Panic nil_map_write
  end.

(** ** [Request.Get] and [Request.ParseJARM] *)

(** net/url: [url.Parse], [url.ParseQuery] as [URL.Query] uses it (its
    error dropped), and [Values.Encode]. *)
Class NetURL := {
  url_Parse : string -> string + URL;
  url_ParseQuery : string -> Values;
  Values_Encode : Values -> string
}.

Definition URL_Query `{NetURL} (u : URL) : Values := url_ParseQuery (RawQuery u).

Definition Get `{Material, NetURL} (r : Request) (key : string) : outcome string :=
  match JARM r !! key with
  | Some (JStr v) => Ret v
  | _ =>
      match URL_ r with
      | None => Panic nil_dereference
      | Some u =>
          let v := Values_Get (URL_Query u) key in
          if decide (v = "") then Ret (Form_Get (Form r) key) else Ret v
      end
  end.

(** go-jose's [jwt] package.  [Token_Claims] is [token.Claims(key, &dest)]:
    it verifies, then decodes into the map it is given, and returns the map
    as it left it next to the error, if any.  The functions are embedded
    where they return: a [Key] is a key they return on, with an error or
    without, and a value on which go-jose panics (a nil pointer held in the
    [interface{}], which is not the nil that line 110 tests for) is outside
    the type. *)
Class JOSE `{Material} := {
  JSONWebToken : Type;
  NestedJSONWebToken : Type;
  jwt_ParseSignedAndEncrypted : string -> string + NestedJSONWebToken;
  jwt_ParseSigned : string -> string + JSONWebToken;
  Nested_Decrypt : NestedJSONWebToken -> Key -> string + JSONWebToken;
  Token_Claims : JSONWebToken -> Key -> Claims -> Claims * option string
}.

(** The token [ParseJARM] goes on to verify, or the error it returns
    before that (lines 98-108). *)
Definition parse_token `{JOSE} (response : string) (encryptionKey : option Key)
  : error + JSONWebToken :=
  match jwt_ParseSignedAndEncrypted response with
  | inl err =>
      match jwt_ParseSigned response with
      | inl err2 =>
          inl (ErrWrap (ErrMulti (ErrExt err) (ErrExt err2))
                 "failed to parse JARM response")
      | inr token => inr token
      end
  | inr nestedToken =>
      match encryptionKey with
      | Some k =>
          match Nested_Decrypt nestedToken k with
          | inl err =>
              inl (ErrWrap (ErrExt err)
                     "failed to decrypt encrypted JARM response")
          | inr token => inr token
          end
      | None => inl (ErrNew "no encryption key path")
      end
  end.

Definition ParseJARM `{JOSE, NetURL} (r : Request)
    (signingKey encryptionKey : option Key)
  : outcome (option error) * Request :=
  match Get r "response" with
  | Panic msg => (Panic msg, r)
  | Ret response =>
      let r := set_JARM r ∅ in
      if decide (response = "") then (Ret None, r)
      else
        match parse_token response encryptionKey with
        | inl e => (Ret (Some e), r)
        | inr token =>
            match signingKey with
            | None => (Ret (Some (ErrNew "no signing key path")), r)
            | Some k =>
                let '(m, err) := Token_Claims token k (JARM r) in
                (Ret (ErrExt <$> err), set_JARM r m)
            end
        end
  end.

(** ** Configuration *)

(** grant types *)
Definition AuthorizationCodeGrantType : string := "authorization_code".
Definition ClientCredentialsGrantType : string := "client_credentials".

(** auth methods *)
Definition ClientSecretBasicAuthMethod : string := "client_secret_basic".
Definition ClientSecretPostAuthMethod : string := "client_secret_post".
Definition ClientSecretJwtAuthMethod : string := "client_secret_jwt".
Definition PrivateKeyJwtAuthMethod : string := "private_key_jwt".
Definition SelfSignedTLSAuthMethod : string := "self_signed_tls_client_auth".
Definition TLSClientAuthMethod : string := "tls_client_auth".
Definition NoneAuthMethod : string := "none".

(** Modelled from the spec: the constant [JwtBearerClientAssertion], whose
    declaration is not among the sources; the spec calls it the JWT-bearer
    assertion URN. *)
Definition JwtBearerClientAssertion : string :=
  "urn:ietf:params:oauth:client-assertion-type:jwt-bearer".

Record ClientConfig := mkClientConfig {
  IssuerURL : string;
  ClientID : string;
  ClientSecret : string;
  GrantType : string;
  AuthMethod : string
}.

(** Modelled from the spec: the type [ServerConfig], whose declaration is
    not among the sources: provider metadata with the authorization
    endpoint, the token endpoint, the mutual-TLS token endpoint and the JWKS
    location. *)
Record ServerConfig := mkServerConfig {
  AuthorizationEndpoint : string;
  TokenEndpoint : string;
  MTLSTokenEndpoint : string;
  JWKsURI : string
}.

(** ** net/http and crypto/tls, as far as the core looks into them *)

(** [tls.Certificate]: the chain of DER blobs, leaf first. *)
Record tls_Certificate := mk_tls_Certificate {
  Certificate_ : list string
}.

Record tls_Config := mk_tls_Config {
  Certificates : list tls_Certificate
}.

(** [http.Transport]; [TLSClientConfig] is a pointer. *)
Record http_Transport := mk_http_Transport {
  TLSClientConfig : option tls_Config
}.

(** The dynamic type of [Client.Transport], an [http.RoundTripper]: none,
    a [*http.Transport] (taken to point at a transport), or some other
    implementation. *)
Inductive RoundTripper :=
| NoRoundTripper
| StdTransport (tr : http_Transport)
| OtherRoundTripper.

(** An outbound [*http.Request] and the [*http.Response] to it. *)
Record http_Request := mk_http_Request {
  req_Method : string;
  req_URL : URL;
  req_Header : Values;
  req_Body : string
}.

(** [resp.Body] is a stream: what [io.ReadAll] gets out of it, and the
    error that ended the read, if one did. *)
Record http_Response := mk_http_Response {
  StatusCode : Z;
  Body : string;
  BodyError : option string
}.

(** [*http.Client]: its transport, and what [Do] answers to a request (the
    error of a failed exchange, or the response).  [Do] may also write to
    the header map of the request it is given (a client with a cookie jar
    adds [Cookie]): [Do_Header] is that map as [Do] leaves it. *)
Record http_Client := mk_http_Client {
  Transport : RoundTripper;
  Do : http_Request -> string + http_Response;
  Do_Header : http_Request -> Values
}.

(** ** [Request.AuthenticateClient] *)

(** The repository's JWT helpers, whose code is not among the sources, and
    [x509.ParseCertificate].  [SignJWT] returns the assertion, the key it
    signed with, and the error. *)
Class Signing `{Material} := {
  JWTClaims : Type;
  Signer : Type;
  ClientAssertionClaims : ServerConfig -> ClientConfig -> JWTClaims;
  SecretSigner : string -> Signer;
  JWKSigner : ClientConfig -> http_Client -> Signer;
  SignJWT : JWTClaims -> Signer -> string * option Key * option error;
  x509_ParseCertificate : string -> string + Certificate
}.

(** A method on [*Request]: it runs on the Request and leaves it mutated,
    whether it returns or panics. *)
Definition method `{Material} (A : Type) : Type := Request -> outcome A * Request.

Definition mret `{Material} {A} (a : A) : method A := fun r => (Ret a, r).

Definition mbind `{Material} {A B} (m : method A) (k : A -> method B) : method B :=
  fun r =>
    match m r with
    | (Ret a, r') => k a r'
    | (Panic msg, r') => (Panic msg, r')
    end.

Definition mpanic `{Material} {A} (msg : string) : method A := fun r => (Panic msg, r).

Notation "m ;;; k" := (mbind m (fun _ => k))
  (at level 100, right associativity, only parsing).

(** [r.Form.Set(key, value)] *)
Definition Form_Set_ `{Material} (key value : string) : method unit :=
  fun r =>
    match Form_Set (Form r) key value with
    | Ret f => (Ret tt, set_Form r f)
    | Panic msg => (Panic msg, r)
    end.

Definition assign_Key `{Material} (k : option Key) : method unit :=
  fun r => (Ret tt, set_Key r k).

Definition assign_Cert `{Material} (c : option Certificate) : method unit :=
  fun r => (Ret tt, set_Cert r c).

(** Lines 37-47 and 49-59: sign, store the key, and on success set the two
    assertion fields. *)
Definition authenticate_jwt `{Signing} (endpoint : string)
    (cconfig : ClientConfig) (sconfig : ServerConfig) (signer : Signer)
  : method (string * option error) :=
  let '(clientAssertion, key, err) :=
    SignJWT (ClientAssertionClaims sconfig cconfig) signer in
  assign_Key key ;;;
  match err with
  | Some e => mret (endpoint, Some e)
  | None =>
      Form_Set_ "client_assertion_type" JwtBearerClientAssertion ;;;
      Form_Set_ "client_assertion" clientAssertion ;;;
      mret (endpoint, None)
  end.

(** Lines 64-68: the leaf certificate of the transport, when there is one. *)
Definition read_certificate `{Signing} (hc : http_Client) : method unit :=
  match Transport hc with
  | StdTransport tr =>
      match TLSClientConfig tr with
      | None => mpanic nil_dereference
      | Some cfg =>
          match Certificates cfg with
          | [] => mret tt
          | c :: _ =>
              match Certificate_ c with
              | [] => mpanic index_out_of_range
              | der :: _ =>
                  match x509_ParseCertificate der with
                  | inr cert => assign_Cert (Some cert)
                  | inl _ => assign_Cert None
                  end
              end
          end
      end
  | _ => mret tt
  end.

Definition AuthenticateClient `{Signing} (endpoint mtlsEndpoint : string)
    (cconfig : ClientConfig) (sconfig : ServerConfig) (hc : http_Client)
  : method (string * option error) :=
  if decide (AuthMethod cconfig = ClientSecretPostAuthMethod) then
    Form_Set_ "client_id" (ClientID cconfig) ;;;
    Form_Set_ "client_secret" (ClientSecret cconfig) ;;;
    mret (endpoint, None)
  else if decide (AuthMethod cconfig = ClientSecretJwtAuthMethod) then
    authenticate_jwt endpoint cconfig sconfig (SecretSigner (ClientSecret cconfig))
  else if decide (AuthMethod cconfig = PrivateKeyJwtAuthMethod) then
    authenticate_jwt endpoint cconfig sconfig (JWKSigner cconfig hc)
  else if decide (AuthMethod cconfig = TLSClientAuthMethod
                  ∨ AuthMethod cconfig = SelfSignedTLSAuthMethod) then
    Form_Set_ "client_id" (ClientID cconfig) ;;;
    read_certificate hc ;;;
    mret (mtlsEndpoint, None)
  else
    mret (endpoint, None).

(** ** [RequestAuthorization] *)

(** shortuuid: [shortuuid.New] draws an identifier from the process's
    entropy, which is the state the calls thread. *)
Class ShortUUID := {
  Entropy : Type;
  shortuuid_New : Entropy -> string * Entropy
}.

Definition MethodGet : string := "GET".
Definition MethodPost : string := "POST".

(** The [url.Values] literal of lines 55-61, with the two identifiers
    already drawn. *)
Definition authorization_values (addr : string) (cconfig : ClientConfig)
    (state nonce : string) : Values :=
  <["client_id" := [ClientID cconfig]]>
    (<["response_type" := ["code"]]>
       (<["redirect_uri" := ["http://" ++ addr ++ "/callback"]]>
          (<["state" := [state]]>
             (<["nonce" := [nonce]]> ∅)))).

Definition RequestAuthorization `{Material, NetURL, ShortUUID} (addr : string)
    (cconfig : ClientConfig) (sconfig : ServerConfig) (g : Entropy)
  : (Request * option error) * Entropy :=
  match url_Parse (AuthorizationEndpoint sconfig) with
  | inl err =>
      ((zero_Request,
        Some (ErrWrap (ErrExt err) "failed to parse authorization endpoint")), g)
  | inr u =>
      let '(state, g) := shortuuid_New g in
      let '(nonce, g) := shortuuid_New g in
      let values := authorization_values addr cconfig state nonce in
      let r := set_URL zero_Request (Some (set_RawQuery u (Values_Encode values))) in
      let r := set_Method r MethodGet in
      ((r, None), g)
  end.

(** ** [WaitForCallback] *)

Definition StatusOK : Z := 200.
Definition StatusBadRequest : Z := 400.

(** An inbound [*http.Request], as the handler reads it; its [URL] is never
    nil. *)
Record inbound := mk_inbound {
  in_Method : string;
  in_URL : URL
}.

(** What the handler wrote to the [http.ResponseWriter]. *)
Record written := mk_written {
  w_Status : Z;
  w_Body : string
}.

(** The variables the handler closure captures and assigns: the named
    results [request] and [err] of its invocation. *)
Definition captured `{Material} : Type := (Request * option error)%type.

(** The handler of lines 77-97, run on one request. *)
Definition callback_handler `{Material, NetURL} (r : inbound) (c : captured)
  : captured * written :=
  let request := set_Method (fst c) (in_Method r) in
  let request := set_URL request (Some (in_URL r)) in
  let query := URL_Query (in_URL r) in
  if decide (Values_Get query "error" = "") then
    ((request, snd c),
     mk_written StatusOK "Authorization succeeded. You may close this browser.")
  else
    ((request,
      Some (ErrProvider
              {| ErrorCode := Values_Get query "error";
                 Description := Values_Get query "error_description";
                 Hint := Values_Get query "error_hint";
                 TraceID := Values_Get query "trace_id" |})),
     mk_written StatusBadRequest "Authorization failed. You may close this browser.").

(** The handler run on the requests the server dispatches to it, in
    order, collecting what it wrote. *)
Fixpoint serve `{Material, NetURL} (rs : list inbound) (c : captured)
  : captured * list written :=
  match rs with
  | [] => (c, [])
  | r :: rs =>
      let '(c, w) := callback_handler r c in
      let '(c, ws) := serve rs c in
      (c, w :: ws)
  end.

(** [http.DefaultServeMux], the handler table of the process: each
    registered pattern with the listening address of the invocation whose
    closure it holds. *)
Abbreviation ServeMux := (gmap string string).

(** [http.HandleFunc] on the default mux; a pattern registered twice
    panics. *)
Definition http_HandleFunc (mux : ServeMux) (pattern owner : string)
  : outcome ServeMux :=
  match mux !! pattern with
  | Some _ => Panic ("http: multiple registrations for " ++ pattern)
  | None => Ret (<[pattern := owner]> mux)
  end.

(** [http.Server{Addr: addr}]: the server an invocation builds. *)
Record http_Server := mk_http_Server {
  Addr : string
}.

(** What one invocation meets: whether [ListenAndServe] fails at once (the
    address is taken or malformed), and otherwise the requests that reach
    the [/callback] handler before the shutdown takes effect. *)
Record arrivals := mk_arrivals {
  listen_error : option string;
  callbacks : list inbound
}.

(** How an invocation ends: it returns, or it waits for ever because the
    server runs and no callback comes. *)
Inductive ending `{Material} :=
| Returned (request : Request) (err : option error) (responses : list written)
| Waiting.

(** [WaitForCallback]: the server it built, how it ended, and the handler
    table it leaves behind. *)
Definition WaitForCallback `{Material, NetURL} (addr : string) (mux : ServeMux)
    (env : arrivals) : outcome (http_Server * ending) * ServeMux :=
  let srv := mk_http_Server addr in
  match http_HandleFunc mux "/callback" addr with
  | Panic msg => (Panic msg, mux)
  | Ret mux =>
      match listen_error env with
      | Some serr => (Ret (srv, Returned zero_Request (Some (ErrExt serr)) []), mux)
      | None =>
          match callbacks env with
          | [] => (Ret (srv, Waiting), mux)
          | rs =>
              let '((request, err), ws) := serve rs (zero_Request, None) in
              (Ret (srv, Returned request err ws), mux)
          end
      end
  end.

(** ** [RequestToken] *)

Record TokenResponse := mkTokenResponse {
  AccessToken : string;
  ExpiresIn : Z;
  IDToken : string;
  IssuedTokenType : string;
  RefreshToken : string;
  Scope : string;
  TokenType : string
}.

Definition zero_TokenResponse : TokenResponse :=
  mkTokenResponse "" 0 "" "" "" "" "".

Record RequestTokenParams := mkRequestTokenParams {
  Code : string;
  RedirectURL : string
}.

Definition RequestTokenOption : Type := RequestTokenParams -> RequestTokenParams.

Definition WithAuthorizationCode (code : string) : RequestTokenOption :=
  fun opts => {| Code := code; RedirectURL := RedirectURL opts |}.

Definition WithRedirectURL (url : string) : RequestTokenOption :=
  fun opts => {| Code := Code opts; RedirectURL := url |}.

(** Lines 155-157: the options applied in order to the zero parameters. *)
Definition apply_options (opts : list RequestTokenOption) : RequestTokenParams :=
  fold_left (fun params opt => opt params) opts (mkRequestTokenParams "" "").

(** net/http's [basicAuth] (the base64 of [user:password]) and
    encoding/json on the two types the core decodes.  Unmarshalling gets the
    value to fill and returns it as it left it, next to the error. *)
Class Codec := {
  basicAuth : string -> string -> string;
  json_Unmarshal_TokenResponse : string -> TokenResponse -> TokenResponse * option string;
  json_decode_Error : string -> Error
}.

(** [Header.Set] and [Header.Add], on keys that are in canonical form. *)
Definition Header_Set (h : Values) (key value : string) : Values :=
  <[key := [value]]> h.

Definition Header_Add (h : Values) (key value : string) : Values :=
  <[key := (default [] (h !! key) ++ [value])%list]> h.

(** [req.SetBasicAuth] *)
Definition SetBasicAuth `{Codec} (req : http_Request) (username password : string)
  : http_Request :=
  {| req_Method := req_Method req; req_URL := req_URL req;
     req_Header :=
       Header_Set (req_Header req) "Authorization"
         ("Basic " ++ basicAuth username password);
     req_Body := req_Body req |}.

Definition add_Header (req : http_Request) (key value : string) : http_Request :=
  {| req_Method := req_Method req; req_URL := req_URL req;
     req_Header := Header_Add (req_Header req) key value;
     req_Body := req_Body req |}.

(** [http.NewRequestWithContext] with a valid method and a live context:
    it fails when the URL does not parse. *)
Definition http_NewRequest `{NetURL} (method_ url body : string)
  : string + http_Request :=
  match url_Parse url with
  | inl err => inl err
  | inr u => inr (mk_http_Request method_ u ∅ body)
  end.

(** Lines 159-175: the form of the token request. *)
Definition token_form (cconfig : ClientConfig) (params : RequestTokenParams)
  : Values :=
  let form : Values := {[ "grant_type" := [GrantType cconfig] ]} in
  let form :=
    if decide (AuthMethod cconfig = ClientSecretPostAuthMethod) then
      Values_Set (Values_Set form "client_id" (ClientID cconfig))
        "client_secret" (ClientSecret cconfig)
    else form in
  let form :=
    if decide (RedirectURL params = "") then form
    else Values_Set form "redirect_uri" (RedirectURL params) in
  if decide (Code params = "") then form
  else Values_Set form "code" (Code params).

(** Lines 155-194: the Request as it stands when the POST is issued, and
    the transport request issued; or the Request and the error of line
    183. *)
Definition token_request `{Material, NetURL, Codec} (cconfig : ClientConfig)
    (sconfig : ServerConfig) (opts : list RequestTokenOption)
  : Request * (error + http_Request) :=
  let params := apply_options opts in
  let form := token_form cconfig params in
  let request := set_Form zero_Request (Some form) in
  match http_NewRequest MethodPost (TokenEndpoint sconfig) (Values_Encode form) with
  | inl err => (request, inl (ErrExt err))
  | inr req =>
      let req :=
        if decide (AuthMethod cconfig = ClientSecretBasicAuthMethod) then
          SetBasicAuth req (ClientID cconfig) (ClientSecret cconfig)
        else req in
      let req := add_Header req "Content-Type" "application/x-www-form-urlencoded" in
      let request := set_Method request (req_Method req) in
      let request := set_Headers request (req_Header req) in
      let request := set_URL request (Some (req_URL req)) in
      (request, inr req)
  end.

(** Modelled from the spec: [ParseError], whose code is not among the
    sources: a non-200 response is parsed as a provider Error. *)
Definition ParseError `{Codec} (resp : http_Response) : error :=
  ErrProvider (json_decode_Error (Body resp)).

(** Lines 196-214: the exchange, given the request to send. *)
Definition exchange `{Codec} (hc : http_Client) (req : http_Request)
  : TokenResponse * option error :=
  match Do hc req with
  | inl err => (zero_TokenResponse, Some (ErrExt err))
  | inr resp =>
      if decide (StatusCode resp = StatusOK) then
        match BodyError resp with
        | Some err =>
            (zero_TokenResponse,
             Some (ErrWrap (ErrExt err) "failed to read exchange response body"))
        | None =>
            match json_Unmarshal_TokenResponse (Body resp) zero_TokenResponse with
            | (response, Some err) =>
                (response,
                 Some (ErrWrap (ErrExt err) "failed to parse exchange response"))
            | (response, None) => (response, None)
            end
        end
      else (zero_TokenResponse, Some (ParseError resp))
  end.

(** Line 193 stores in [request.Headers] the header map of the transport
    request itself, not a copy: once [hc.Do] has run, the Request returned
    shows that map as [Do] left it. *)
Definition RequestToken `{Material, NetURL, Codec} (cconfig : ClientConfig)
    (sconfig : ServerConfig) (hc : http_Client) (opts : list RequestTokenOption)
  : Request * TokenResponse * option error :=
  match token_request cconfig sconfig opts with
  | (request, inl err) => (request, zero_TokenResponse, Some err)
  | (request, inr req) =>
      let '(response, err) := exchange hc req in
      (set_Headers request (Do_Header hc req), response, err)
  end.

(** ** The token request as the specification words it

    Form fields [grant_type] plus, conditionally, [redirect_uri] and
    [code]; the Client Authenticator invoked on the Request with the token
    endpoint and its mutual-TLS variant; a POST to the endpoint the
    authenticator returned; HTTP Basic for [client_secret_basic]. *)
Definition spec_token_form (cconfig : ClientConfig) (params : RequestTokenParams)
  : Values :=
  let form : Values := {[ "grant_type" := [GrantType cconfig] ]} in
  let form :=
    if decide (RedirectURL params = "") then form
    else Values_Set form "redirect_uri" (RedirectURL params) in
  if decide (Code params = "") then form
  else Values_Set form "code" (Code params).

Definition spec_token_request `{Signing, NetURL, Codec} (cconfig : ClientConfig)
    (sconfig : ServerConfig) (hc : http_Client) (opts : list RequestTokenOption)
  : outcome (Request * (error + http_Request)) :=
  let params := apply_options opts in
  let request := set_Form zero_Request (Some (spec_token_form cconfig params)) in
  match AuthenticateClient (TokenEndpoint sconfig) (MTLSTokenEndpoint sconfig)
          cconfig sconfig hc request with
  | (Panic msg, _) => Panic msg
  | (Ret (_, Some err), request) => Ret (request, inl err)
  | (Ret (endpoint, None), request) =>
      match http_NewRequest MethodPost endpoint
              (Values_Encode (default ∅ (Form request))) with
      | inl err => Ret (request, inl (ErrExt err))
      | inr req =>
          let req :=
            if decide (AuthMethod cconfig = ClientSecretBasicAuthMethod) then
              SetBasicAuth req (ClientID cconfig) (ClientSecret cconfig)
            else req in
          let req := add_Header req "Content-Type" "application/x-www-form-urlencoded" in
          let request := set_Method request (req_Method req) in
          let request := set_Headers request (req_Header req) in
          let request := set_URL request (Some (req_URL req)) in
          Ret (request, inr req)
      end
  end.

(** ** A small platform to run the embedding on

    Stand-ins for the packages behind the type classes, concrete enough to
    evaluate the core on sample inputs: URLs and queries without
    percent-escapes, symbolic tokens in place of cryptography, and fixed
    JSON samples. *)
Module Demo.

#[export] Instance material : Material := {| Key := string; Certificate := string |}.

(** The pieces of [s] between occurrences of [sep]. *)
Fixpoint split (sep : ascii) (s : string) : list string :=
  match s with
  | EmptyString => [""]
  | String c s' =>
      if decide (c = sep) then "" :: split sep s'
      else
        match split sep s' with
        | piece :: pieces => String c piece :: pieces
        | [] => [String c ""]
        end
  end.

(** [s] cut at the first [sep]. *)
Fixpoint cut (sep : ascii) (s : string) : string * string :=
  match s with
  | EmptyString => ("", "")
  | String c s' =>
      if decide (c = sep) then ("", s')
      else let '(before, after) := cut sep s' in (String c before, after)
  end.

(** [url.ParseQuery] on queries without escapes: [k=v] settings separated
    by [&], the values of a repeated key in order. *)
Definition parse_query (s : string) : Values :=
  fold_left
    (fun (m : Values) piece =>
       if decide (piece = "") then m
       else
         let '(k, v) := cut "=" piece in
         <[k := (default [] (m !! k) ++ [v])%list]> m)
    (split "&" s) ∅.

(** [Values.Encode] without escapes. *)
Definition encode (v : Values) : string :=
  String.concat "&"
    (flat_map (fun '(k, vs) => (fun x => k ++ "=" ++ x) <$> vs) (map_to_list v)).

(** [url.Parse] on [scheme://host/path?query]; a string with a space in it
    is malformed. *)
Definition parse_url (s : string) : string + URL :=
  if decide (" "%char ∈ list_ascii_of_string s) then
    inl "net/url: invalid character in URL"
  else
    let '(before, query) := cut "?" s in
    inr (mkURL "" "" before query).

#[export] Instance net_url : NetURL :=
  {| url_Parse := parse_url; url_ParseQuery := parse_query; Values_Encode := encode |}.

(** A symbolic signed token: who signed it and the members of its payload,
    in order. *)
Record token := mk_token {
  signed_with : string;
  payload : list (string * JVal)
}.

(** A symbolic nested token: the key it is encrypted to and the signed
    token inside. *)
Record nested := mk_nested {
  encrypted_to : string;
  inner : token
}.

(** Decoding a payload into a map, member by member; go-jose's decoder
    stops at a repeated member name. *)
Fixpoint decode_members (seen : list string) (ms : list (string * JVal))
    (dest : Claims) : Claims * option string :=
  match ms with
  | [] => (dest, None)
  | (k, v) :: ms =>
      if decide (k ∈ seen) then (dest, Some "json: duplicate key in object")
      else decode_members (k :: seen) ms (<[k := v]> dest)
  end.

Definition claims_of (t : token) (key : string) (dest : Claims)
  : Claims * option string :=
  if decide (key = signed_with t) then decode_members [] (payload t) dest
  else (dest, Some "go-jose/go-jose: error in cryptographic primitive").

Definition decrypt (n : nested) (key : string) : string + token :=
  if decide (key = encrypted_to n) then inr (inner n)
  else inl "go-jose/go-jose: error in cryptographic primitive".

(** The compact serializations this platform knows. *)
Definition code_token : token :=
  mk_token "sig-key" [("code", JStr "abc123"); ("state", JStr "xyz")].

Definition response_token : token :=
  mk_token "sig-key" [("code", JStr "abc123"); ("response", JStr "done")].

Definition duplicate_token : token :=
  mk_token "sig-key" [("code", JStr "abc123"); ("code", JStr "other")].

Definition signed_tokens : list (string * token) :=
  [("jws.code", code_token); ("jws.response", response_token);
   ("jws.duplicate", duplicate_token)].

Definition nested_tokens : list (string * nested) :=
  [("jwe.code", mk_nested "enc-key" code_token)].

Fixpoint assoc {A} (l : list (string * A)) (k : string) : option A :=
  match l with
  | [] => None
  | (k', a) :: l => if decide (k = k') then Some a else assoc l k
  end.

Definition parse_signed (s : string) : string + token :=
  match assoc signed_tokens s with
  | Some t => inr t
  | None => inl "go-jose/go-jose: compact JWS format must have three parts"
  end.

Definition parse_nested (s : string) : string + nested :=
  match assoc nested_tokens s with
  | Some n => inr n
  | None => inl "go-jose/go-jose: compact JWE format must have five parts"
  end.

#[export] Instance jose : JOSE :=
  {| JSONWebToken := token; NestedJSONWebToken := nested;
     jwt_ParseSignedAndEncrypted := parse_nested;
     jwt_ParseSigned := parse_signed;
     Nested_Decrypt := decrypt;
     Token_Claims := claims_of |}.

(** Signing: the assertion names its subject and its key; an empty key
    does not sign. *)
Definition sign (claims signer : string) : string * option string * option error :=
  if decide (signer = "") then ("", None, Some (ErrExt "invalid key"))
  else ("assertion:" ++ claims ++ ":" ++ signer, Some signer, None).

Definition parse_certificate (der : string) : string + string :=
  if decide (der = "") then inl "x509: malformed certificate" else inr der.

#[export] Instance signing : Signing :=
  {| JWTClaims := string; Signer := string;
     ClientAssertionClaims := fun _ cconfig => ClientID cconfig;
     SecretSigner := fun secret => secret;
     JWKSigner := fun cconfig _ => "jwk-of-" ++ ClientID cconfig;
     SignJWT := sign;
     x509_ParseCertificate := parse_certificate |}.

(** Identifiers drawn from a counter that stands for the entropy. *)
#[export] Instance short_uuid : ShortUUID :=
  {| Entropy := nat; shortuuid_New := fun n => ("id" ++ pretty n, S n) |}.

Definition quote : string := String (ascii_of_nat 34) "".

(** [{"access_token":"T","token_type":"Bearer","expires_in":3600}] *)
Definition token_json : string :=
  "{" ++ quote ++ "access_token" ++ quote ++ ":" ++ quote ++ "T" ++ quote ++ ","
      ++ quote ++ "token_type" ++ quote ++ ":" ++ quote ++ "Bearer" ++ quote ++ ","
      ++ quote ++ "expires_in" ++ quote ++ ":3600}".

(** [{"error":"invalid_grant"}] *)
Definition error_json : string :=
  "{" ++ quote ++ "error" ++ quote ++ ":" ++ quote ++ "invalid_grant" ++ quote ++ "}".

Definition unmarshal_token (body : string) (into : TokenResponse)
  : TokenResponse * option string :=
  if decide (body = token_json) then
    ({| AccessToken := "T"; ExpiresIn := 3600; IDToken := IDToken into;
        IssuedTokenType := IssuedTokenType into;
        RefreshToken := RefreshToken into; Scope := Scope into;
        TokenType := "Bearer" |}, None)
  else (into, Some "invalid character looking for beginning of value").

Definition decode_error (body : string) : Error :=
  if decide (body = error_json) then mkError "invalid_grant" "" "" ""
  else mkError "" "" "" "".

#[export] Instance codec : Codec :=
  {| basicAuth := fun username password => username ++ ":" ++ password;
     json_Unmarshal_TokenResponse := unmarshal_token;
     json_decode_Error := decode_error |}.

End Demo.

(** Sample configurations, clients and requests over the platform above. *)
Module Samples.
Import Demo.

Definition server : ServerConfig :=
  mkServerConfig "https://as.example/authorize" "https://as.example/token"
    "https://mtls.as.example/token" "https://app.example/jwks".

Definition client (auth_method : string) : ClientConfig :=
  mkClientConfig "https://as.example" "app" "s3cret" AuthorizationCodeGrantType
    auth_method.

(** A client over a transport that is configured with one certificate
    chain, talking to a token endpoint that gives one fixed answer; it has
    no cookie jar and leaves the headers of its requests alone. *)
Definition http_client (answer : string + http_Response) : http_Client :=
  mk_http_Client
    (StdTransport
       (mk_http_Transport
          (Some (mk_tls_Config [mk_tls_Certificate ["leaf-der"; "ca-der"]]))))
    (fun _ => answer) req_Header.

Definition granted : http_Response := mk_http_Response 200 token_json None.
Definition refused : http_Response := mk_http_Response 400 error_json None.
Definition garbled : http_Response := mk_http_Response 200 "<html>" None.

(** The redirects of the provider, as the callback server receives them. *)
Definition redirect (query : string) : inbound :=
  mk_inbound "GET" (mkURL "" "" "/callback" query).

(** An inbound Request that carries [query]. *)
Definition callback_request (query : string) : Request :=
  set_URL zero_Request (Some (mkURL "" "" "/callback" query)).

(** The generator before its first draw. *)
Definition seed : Entropy := 0%nat.

(** A Request under construction, its form allocated and empty. *)
Definition fresh_request : Request := set_Form zero_Request (Some ∅).

End Samples.

(** * Properties *)

(** ** [Request.Get] *)

(** The claim map holds no string under [key]: the type assertion of line
    75 fails. *)
Definition no_string_claim (m : Claims) (key : string) : Prop :=
  ∀ v, m !! key ≠ Some (JStr v).

Lemma Get_claim `{Material, NetURL} (r : Request) key v :
  JARM r !! key = Some (JStr v) → Get r key = Ret v.
Proof. intros Hv. unfold Get. by rewrite Hv. Qed.

Lemma Get_no_claim `{Material, NetURL} (r : Request) key :
  no_string_claim (JARM r) key →
  Get r key =
    match URL_ r with
    | None => Panic nil_dereference
    | Some u =>
        let v := Values_Get (URL_Query u) key in
        if decide (v = "") then Ret (Form_Get (Form r) key) else Ret v
    end.
Proof.
  intros Hno. unfold Get.
  destruct (JARM r !! key) as [[v| | | | |]|] eqn:E; try done.
  by destruct (Hno v).
Qed.

Lemma no_string_claim_empty key : no_string_claim ∅ key.
Proof. intros v. by rewrite lookup_empty. Qed.

(** [Get] reads the claim map, the URL and the form, and nothing else. *)
Lemma Get_ext `{Material, NetURL} (r r' : Request) key :
  JARM r = JARM r' → URL_ r = URL_ r' → Form r = Form r' →
  Get r key = Get r' key.
Proof. intros HJ HU HF. unfold Get. by rewrite HJ, HU, HF. Qed.

(** C10. [Get] returns a string claim without looking at the URL, returns
    some value whenever the URL is not nil, and panics on the nil URL when
    the claim map has no string for the key; [ParseJARM], which starts with
    [Get("response")], panics with it and leaves the Request as it was. *)
Theorem Get_total_only_with_URL `{JOSE, NetURL} (r : Request) (key : string) :
  (∀ v u, JARM r !! key = Some (JStr v) → Get (set_URL r u) key = Ret v) ∧
  (∀ u, URL_ r = Some u → ∃ v, Get r key = Ret v) ∧
  (URL_ r = None → no_string_claim (JARM r) key →
   Get r key = Panic nil_dereference) ∧
  (∀ signingKey encryptionKey,
     URL_ r = None → no_string_claim (JARM r) "response" →
     ParseJARM r signingKey encryptionKey = (Panic nil_dereference, r)).
Proof.
  repeat split.
  - intros v u Hv. by apply Get_claim.
  - intros u Hu. unfold Get. rewrite Hu.
    destruct (JARM r !! key) as [[v| | | | |]|]; try case_decide; eauto.
  - intros Hu Hno. rewrite Get_no_claim by done. by rewrite Hu.
  - intros sk ek Hu Hno. unfold ParseJARM.
    rewrite Get_no_claim by done. by rewrite Hu.
Qed.

(** ** [Request.ParseJARM] *)

(** [ParseJARM] on a Request that carries a response, in terms of
    [parse_token]. *)
Lemma ParseJARM_response `{JOSE, NetURL} (r : Request) response signingKey encryptionKey :
  Get r "response" = Ret response → response ≠ "" →
  ParseJARM r signingKey encryptionKey =
    match parse_token response encryptionKey with
    | inl e => (Ret (Some e), set_JARM r ∅)
    | inr token =>
        match signingKey with
        | None => (Ret (Some (ErrNew "no signing key path")), set_JARM r ∅)
        | Some k =>
            (Ret (ErrExt <$> (Token_Claims token k ∅).2),
             set_JARM r (Token_Claims token k ∅).1)
        end
    end.
Proof.
  intros HG Hne. unfold ParseJARM. rewrite HG.
  rewrite decide_False by done.
  destruct (parse_token response encryptionKey) as [e|token]; [done|].
  destruct signingKey as [k|]; [|done].
  simpl. by destruct (Token_Claims token k ∅).
Qed.

Lemma ParseJARM_absent `{JOSE, NetURL} (r : Request) signingKey encryptionKey :
  Get r "response" = Ret "" →
  ParseJARM r signingKey encryptionKey = (Ret None, set_JARM r ∅).
Proof. intros HG. unfold ParseJARM. by rewrite HG. Qed.

(** C3. On a Request that carries a non-empty response: the nested parse
    is tried first and the signed-only parse is the fallback; when both
    fail the error wraps the two failures together; a nested token without
    an encryption key is refused with [no encryption key path] whatever the
    signing key and before [Claims] is reached; a token without a signing
    key is refused with [no signing key path]; and a nil error means
    [Claims] ran with the supplied signing key and reported no error. *)
Theorem ParseJARM_fails_closed `{JOSE, NetURL} (r : Request) (response : string)
    (signingKey encryptionKey : option Key) :
  Get r "response" = Ret response → response ≠ "" →
  (∀ err err2,
     jwt_ParseSignedAndEncrypted response = inl err →
     jwt_ParseSigned response = inl err2 →
     ParseJARM r signingKey encryptionKey =
       (Ret (Some (ErrWrap (ErrMulti (ErrExt err) (ErrExt err2))
                     "failed to parse JARM response")),
        set_JARM r ∅)) ∧
  (∀ err token,
     jwt_ParseSignedAndEncrypted response = inl err →
     jwt_ParseSigned response = inr token →
     parse_token response encryptionKey = inr token) ∧
  (∀ nestedToken,
     jwt_ParseSignedAndEncrypted response = inr nestedToken →
     ParseJARM r signingKey None =
       (Ret (Some (ErrNew "no encryption key path")), set_JARM r ∅)) ∧
  (∀ token,
     parse_token response encryptionKey = inr token →
     ParseJARM r None encryptionKey =
       (Ret (Some (ErrNew "no signing key path")), set_JARM r ∅)) ∧
  (∃ e, ParseJARM r None encryptionKey = (Ret (Some e), set_JARM r ∅)) ∧
  (∀ r',
     ParseJARM r signingKey encryptionKey = (Ret None, r') →
     ∃ token k,
       parse_token response encryptionKey = inr token ∧
       signingKey = Some k ∧
       Token_Claims token k ∅ = (JARM r', None)).
Proof.
  intros HG Hne. split_and!.
  - intros err err2 Hnest Hsig.
    rewrite (ParseJARM_response r response) by done.
    unfold parse_token. by rewrite Hnest, Hsig.
  - intros err token Hnest Hsig. unfold parse_token. by rewrite Hnest, Hsig.
  - intros nestedToken Hnest.
    rewrite (ParseJARM_response r response) by done.
    unfold parse_token. by rewrite Hnest.
  - intros token Ht.
    rewrite (ParseJARM_response r response) by done. by rewrite Ht.
  - rewrite (ParseJARM_response r response) by done.
    destruct (parse_token response encryptionKey); eauto.
  - intros r'. rewrite (ParseJARM_response r response) by done.
    destruct (parse_token response encryptionKey) as [e|token]; [done|].
    destruct signingKey as [k|]; [|done].
    destruct (Token_Claims token k ∅) as [m [e|]] eqn:E; simpl; [done|].
    intros [= <-]. exists token, k. by rewrite E.
Qed.

(** When [ParseJARM] returns, the claim map is the only field it has
    changed. *)
Lemma ParseJARM_frame `{JOSE, NetURL} (r r' : Request) signingKey encryptionKey x :
  ParseJARM r signingKey encryptionKey = (Ret x, r') → r' = set_JARM r (JARM r').
Proof.
  unfold ParseJARM. destruct (Get r "response") as [response|]; [|done].
  case_decide; [by intros [= _ <-]|].
  destruct (parse_token response encryptionKey) as [e|token]; [by intros [= _ <-]|].
  destruct signingKey as [k|]; [|by intros [= _ <-]].
  simpl. destruct (Token_Claims token k ∅). by intros [= _ <-].
Qed.

Lemma ParseJARM_returns `{JOSE, NetURL} (r r' : Request) signingKey encryptionKey x :
  ParseJARM r signingKey encryptionKey = (Ret x, r') →
  ∃ response, Get r "response" = Ret response.
Proof.
  unfold ParseJARM. destruct (Get r "response") as [response|]; [eauto|done].
Qed.

(** C6, as the code has it.  When [ParseJARM] returns, it has changed the
    claim map and nothing else, and what the map holds no longer depends on
    what it held before.  Without a response the error is nil and the map
    empty.  With one: an error that comes before [Claims] runs (no token
    could be parsed or decrypted, or a key is missing) leaves the map
    empty; once [Claims] has run, the error is the one [Claims] returned
    and the map is exactly the map [Claims] left of the empty map it was
    given, on success and on failure alike, the code not touching it
    again.  So the map can be non-empty next to an error only after a
    failure of [Claims], and it is then what [Claims] had stored. *)
Theorem ParseJARM_claim_map `{JOSE, NetURL} (r r' : Request)
    (signingKey encryptionKey : option Key) (response : string) (x : option error) :
  Get r "response" = Ret response →
  ParseJARM r signingKey encryptionKey = (Ret x, r') →
  r' = set_JARM r (JARM r') ∧
  (response = "" → x = None ∧ JARM r' = ∅) ∧
  (response ≠ "" →
   (∀ e, parse_token response encryptionKey = inl e →
      x = Some e ∧ JARM r' = ∅) ∧
   (∀ token, parse_token response encryptionKey = inr token →
      signingKey = None →
      x = Some (ErrNew "no signing key path") ∧ JARM r' = ∅) ∧
   (∀ token k, parse_token response encryptionKey = inr token →
      signingKey = Some k →
      x = ErrExt <$> (Token_Claims token k ∅).2 ∧
      JARM r' = (Token_Claims token k ∅).1)) ∧
  (∀ e, x = Some e → JARM r' ≠ ∅ →
     ∃ token k d,
       parse_token response encryptionKey = inr token ∧ signingKey = Some k ∧
       Token_Claims token k ∅ = (JARM r', Some d) ∧ e = ErrExt d) ∧
  (x = None → response ≠ "" →
     ∃ token k,
       parse_token response encryptionKey = inr token ∧ signingKey = Some k ∧
       Token_Claims token k ∅ = (JARM r', None)).
Proof.
  intros HG HP. split; [by eapply ParseJARM_frame|].
  destruct (decide (response = "")) as [->|Hne].
  - rewrite ParseJARM_absent in HP by done. injection HP as <- <-.
    split_and!; done.
  - rewrite (ParseJARM_response r response) in HP by done.
    split; [done|].
    destruct (parse_token response encryptionKey) as [e0|token].
    { injection HP as <- <-. split; [|split; [|done]].
      - intros _. split_and!; [by intros e [= <-]|done..].
      - intros e _ Hm. by destruct Hm. }
    destruct signingKey as [k|].
    2:{ injection HP as <- <-. split; [|split; [|done]].
        - intros _. split_and!; [done|by intros|done].
        - intros e _ Hm. by destruct Hm. }
    injection HP as <- <-. simpl.
    split; [|split].
    + intros _. split_and!; [done..|]. by intros token' k' [= <-] [= <-].
    + destruct (Token_Claims token k ∅) as [m [d|]] eqn:E; simpl; [|done].
      intros e [= <-] _. by exists token, k, d.
    + destruct (Token_Claims token k ∅) as [m [d|]] eqn:E; simpl; [done|].
      intros _ _. by exists token, k.
Qed.

(** A second run on the Request the first one left behind finds the same
    response and so does the same again. *)
Lemma ParseJARM_again `{JOSE, NetURL} (r r1 : Request) signingKey encryptionKey x :
  ParseJARM r signingKey encryptionKey = (Ret x, r1) →
  Get r1 "response" = Get r "response" →
  ParseJARM r1 signingKey encryptionKey = (Ret x, r1).
Proof.
  intros HP HG.
  pose proof (ParseJARM_frame _ _ _ _ _ HP) as Hr1.
  revert HP. unfold ParseJARM. rewrite HG.
  destruct (Get r "response") as [response|]; [|done].
  replace (set_JARM r1 ∅) with (set_JARM r ∅); [done|].
  by rewrite Hr1.
Qed.

(** C7, as the code has it.  The lookup order of [Get]: a string in the
    claim map, else a non-empty query parameter, else the form field.  And
    when the claim map holds no string under [response], neither before the
    first run nor after it, a second run with the same keys on the verified
    Request succeeds again and leaves the same Request, claim map
    included. *)
Theorem ParseJARM_idempotent `{JOSE, NetURL} (r r1 : Request)
    (signingKey encryptionKey : option Key) :
  (∀ key v, JARM r !! key = Some (JStr v) → Get r key = Ret v) ∧
  (∀ key u, no_string_claim (JARM r) key → URL_ r = Some u →
     Values_Get (URL_Query u) key ≠ "" →
     Get r key = Ret (Values_Get (URL_Query u) key)) ∧
  (∀ key u, no_string_claim (JARM r) key → URL_ r = Some u →
     Values_Get (URL_Query u) key = "" →
     Get r key = Ret (Form_Get (Form r) key)) ∧
  (no_string_claim (JARM r) "response" →
   ParseJARM r signingKey encryptionKey = (Ret None, r1) →
   no_string_claim (JARM r1) "response" →
   ParseJARM r1 signingKey encryptionKey = (Ret None, r1)).
Proof.
  split_and!.
  - intros key v. apply Get_claim.
  - intros key u Hno Hu Hq. rewrite Get_no_claim by done. rewrite Hu.
    simpl. by rewrite decide_False.
  - intros key u Hno Hu Hq. rewrite Get_no_claim by done. rewrite Hu.
    simpl. by rewrite decide_True.
  - intros Hno HP Hno1. eapply ParseJARM_again; [done|].
    pose proof (ParseJARM_frame _ _ _ _ _ HP) as Hr1.
    rewrite !Get_no_claim by done. by rewrite Hr1.
Qed.

(** ** [Request.AuthenticateClient] *)

(** The fields no authentication method writes. *)
Definition same_envelope `{Material} (r r' : Request) : Prop :=
  Method r' = Method r ∧ URL_ r' = URL_ r ∧ Headers r' = Headers r ∧
  JARM r' = JARM r.

(** The values a possibly nil form holds under a key. *)
Definition Form_lookup (f : option Values) (key : string) : option (list string) :=
  f ≫= (fun v => v !! key).

(** The form of [r'] is that of [r] except, at most, under [keys]. *)
Definition form_only_at `{Material} (keys : list string) (r r' : Request) : Prop :=
  (Form r' = None ↔ Form r = None) ∧
  ∀ key, key ∉ keys → Form_lookup (Form r') key = Form_lookup (Form r) key.

(** From [r] to [r'] nothing was written but form fields under [keys] and,
    where the flags say so, the key and the certificate. *)
Definition sets_only `{Material} (keys : list string) (key_too cert_too : bool)
    (r r' : Request) : Prop :=
  same_envelope r r' ∧ form_only_at keys r r' ∧
  (key_too = false → Key_ r' = Key_ r) ∧
  (cert_too = false → Cert r' = Cert r).

Lemma sets_only_refl `{Material} keys kt ct (r : Request) : sets_only keys kt ct r r.
Proof. by repeat split. Qed.

Lemma sets_only_trans `{Material} keys kt ct (r1 r2 r3 : Request) :
  sets_only keys kt ct r1 r2 → sets_only keys kt ct r2 r3 →
  sets_only keys kt ct r1 r3.
Proof.
  intros ((?&?&?&?)&(Hn&Hf)&Hk&Hc) ((?&?&?&?)&(Hn'&Hf')&Hk'&Hc').
  split; [split_and!; congruence|]. split; [split; [tauto|]|split].
  - intros key Hkey. rewrite Hf' by done. by apply Hf.
  - intros E. rewrite Hk' by done. by apply Hk.
  - intros E. rewrite Hc' by done. by apply Hc.
Qed.

(** What a step of a method leaves behind satisfies [P] relative to where it
    started, whether the step returned or panicked. *)
Definition step_keeps `{Material} {A} (P : Request → Request → Prop)
    (m : method A) : Prop :=
  ∀ r, P r (m r).2.

Lemma step_keeps_mret `{Material} {A} keys kt ct (a : A) :
  step_keeps (sets_only keys kt ct) (mret a).
Proof. intros r. apply sets_only_refl. Qed.

Lemma step_keeps_mpanic `{Material} {A} keys kt ct msg :
  step_keeps (sets_only keys kt ct) (mpanic (A:=A) msg).
Proof. intros r. apply sets_only_refl. Qed.

Lemma step_keeps_mbind `{Material} {A B} keys kt ct (m : method A) (k : A → method B) :
  step_keeps (sets_only keys kt ct) m →
  (∀ a, step_keeps (sets_only keys kt ct) (k a)) →
  step_keeps (sets_only keys kt ct) (mbind m k).
Proof.
  intros Hm Hk r. unfold mbind. specialize (Hm r).
  destruct (m r) as [[a|msg] r1]; simpl in *; [|done].
  eapply sets_only_trans; [done|]. apply Hk.
Qed.

Lemma step_keeps_Form_Set `{Material} keys kt ct key value :
  key ∈ keys → step_keeps (sets_only keys kt ct) (Form_Set_ key value).
Proof.
  intros Hin r. unfold Form_Set_, Form_Set.
  destruct (Form r) as [f|] eqn:E; simpl; [|apply sets_only_refl].
  split; [done|]. split; [|done]. split; [simpl; by rewrite E|].
  intros k Hk. rewrite E. simpl. unfold Values_Set.
  apply lookup_insert_ne. by intros ->.
Qed.

Lemma step_keeps_assign_Key `{Material} keys ct k :
  step_keeps (sets_only keys true ct) (assign_Key k).
Proof. intros r. by split_and!. Qed.

Lemma step_keeps_assign_Cert `{Material} keys kt c :
  step_keeps (sets_only keys kt true) (assign_Cert c).
Proof. intros r. by split_and!. Qed.

Lemma step_keeps_authenticate_jwt `{Signing} endpoint cconfig sconfig signer :
  step_keeps (sets_only ["client_assertion_type"; "client_assertion"] true false)
    (authenticate_jwt endpoint cconfig sconfig signer).
Proof.
  unfold authenticate_jwt.
  destruct (SignJWT _ _) as [[assertion key] [e|]].
  - apply step_keeps_mbind; [apply step_keeps_assign_Key|].
    intros _. apply step_keeps_mret.
  - apply step_keeps_mbind; [apply step_keeps_assign_Key|]. intros _.
    apply step_keeps_mbind; [apply step_keeps_Form_Set; repeat constructor|]. intros _.
    apply step_keeps_mbind; [apply step_keeps_Form_Set; repeat constructor|]. intros _.
    apply step_keeps_mret.
Qed.

Lemma step_keeps_read_certificate `{Signing} keys kt hc :
  step_keeps (sets_only keys kt true) (read_certificate hc).
Proof.
  unfold read_certificate.
  destruct (Transport hc) as [|tr|]; try apply step_keeps_mret.
  destruct (TLSClientConfig tr) as [cfg|]; [|apply step_keeps_mpanic].
  destruct (Certificates cfg) as [|c ?]; [apply step_keeps_mret|].
  destruct (Certificate_ c) as [|der ?]; [apply step_keeps_mpanic|].
  destruct (x509_ParseCertificate der); apply step_keeps_assign_Cert.
Qed.

Lemma authenticate_jwt_signed `{Signing} endpoint cconfig sconfig signer
    (r : Request) assertion key f :
  SignJWT (ClientAssertionClaims sconfig cconfig) signer = (assertion, key, None) →
  Form r = Some f →
  authenticate_jwt endpoint cconfig sconfig signer r =
    (Ret (endpoint, None),
     set_Form (set_Key r key)
       (Some (<["client_assertion" := [assertion]]>
                (<["client_assertion_type" := [JwtBearerClientAssertion]]> f)))).
Proof.
  intros HS HF. unfold authenticate_jwt. rewrite HS.
  unfold mbind, assign_Key, Form_Set_, Form_Set, mret. simpl. by rewrite HF.
Qed.

Lemma authenticate_jwt_failed `{Signing} endpoint cconfig sconfig signer
    (r : Request) assertion key e :
  SignJWT (ClientAssertionClaims sconfig cconfig) signer = (assertion, key, Some e) →
  authenticate_jwt endpoint cconfig sconfig signer r =
    (Ret (endpoint, Some e), set_Key r key).
Proof. intros HS. unfold authenticate_jwt. by rewrite HS. Qed.

(** The signer each JWT method signs with. *)
Definition signer_of `{Signing} (cconfig : ClientConfig) (hc : http_Client) : Signer :=
  if decide (AuthMethod cconfig = ClientSecretJwtAuthMethod) then
    SecretSigner (ClientSecret cconfig)
  else JWKSigner cconfig hc.

(** The certificate the TLS methods find on the client's transport: the
    parsed leaf of the first configured chain. *)
Definition leaf_certificate `{Signing} (hc : http_Client) : option (option Certificate) :=
  match Transport hc with
  | StdTransport tr =>
      match TLSClientConfig tr with
      | Some cfg =>
          match Certificates cfg with
          | c :: _ =>
              match Certificate_ c with
              | der :: _ =>
                  match x509_ParseCertificate der with
                  | inr cert => Some (Some cert)
                  | inl _ => Some None
                  end
              | [] => None
              end
          | [] => None
          end
      | None => None
      end
  | _ => None
  end.

Lemma read_certificate_leaf `{Signing} hc (r : Request) c :
  leaf_certificate hc = Some c → read_certificate hc r = (Ret tt, set_Cert r c).
Proof.
  unfold leaf_certificate, read_certificate.
  destruct (Transport hc) as [|tr|]; try done.
  destruct (TLSClientConfig tr) as [cfg|]; [|done].
  destruct (Certificates cfg) as [|ch ?]; [done|].
  destruct (Certificate_ ch) as [|der ?]; [done|].
  by destruct (x509_ParseCertificate der); intros [= <-].
Qed.

Lemma read_certificate_Form `{Signing} hc (r : Request) :
  Form (read_certificate hc r).2 = Form r.
Proof.
  unfold read_certificate.
  destruct (Transport hc) as [|tr|]; try done.
  destruct (TLSClientConfig tr) as [cfg|]; [|done].
  destruct (Certificates cfg) as [|ch ?]; [done|].
  destruct (Certificate_ ch) as [|der ?]; [done|].
  by destruct (x509_ParseCertificate der).
Qed.

(** C4. Per authentication method, what [AuthenticateClient] writes, and
    that it writes nothing else: [client_secret_post] the form fields
    [client_id] and [client_secret]; [client_secret_basic] nothing; the JWT
    methods [client_assertion_type], [client_assertion] and the key; the TLS
    methods [client_id] and the certificate, returning the mutual-TLS
    endpoint; any other method nothing.  The method names are pairwise
    distinct, so one case applies. *)
Theorem AuthenticateClient_sets_exactly `{Signing} (r : Request)
    (endpoint mtlsEndpoint : string) (cconfig : ClientConfig)
    (sconfig : ServerConfig) (hc : http_Client) :
  let res := AuthenticateClient endpoint mtlsEndpoint cconfig sconfig hc r in
  NoDup [ClientSecretPostAuthMethod; ClientSecretBasicAuthMethod;
         ClientSecretJwtAuthMethod; PrivateKeyJwtAuthMethod;
         TLSClientAuthMethod; SelfSignedTLSAuthMethod; NoneAuthMethod] ∧
  (AuthMethod cconfig = ClientSecretPostAuthMethod →
   sets_only ["client_id"; "client_secret"] false false r res.2 ∧
   ∀ f, Form r = Some f →
     res = (Ret (endpoint, None),
            set_Form r (Some (<["client_secret" := [ClientSecret cconfig]]>
                                (<["client_id" := [ClientID cconfig]]> f))))) ∧
  (AuthMethod cconfig = ClientSecretBasicAuthMethod →
   res = (Ret (endpoint, None), r)) ∧
  (AuthMethod cconfig = ClientSecretJwtAuthMethod ∨
   AuthMethod cconfig = PrivateKeyJwtAuthMethod →
   sets_only ["client_assertion_type"; "client_assertion"] true false r res.2 ∧
   (∀ assertion key f,
      SignJWT (ClientAssertionClaims sconfig cconfig) (signer_of cconfig hc)
        = (assertion, key, None) →
      Form r = Some f →
      res = (Ret (endpoint, None),
             set_Form (set_Key r key)
               (Some (<["client_assertion" := [assertion]]>
                        (<["client_assertion_type" := [JwtBearerClientAssertion]]> f))))) ∧
   (∀ assertion key e,
      SignJWT (ClientAssertionClaims sconfig cconfig) (signer_of cconfig hc)
        = (assertion, key, Some e) →
      res = (Ret (endpoint, Some e), set_Key r key))) ∧
  (AuthMethod cconfig = TLSClientAuthMethod ∨
   AuthMethod cconfig = SelfSignedTLSAuthMethod →
   sets_only ["client_id"] false true r res.2 ∧
   (∀ x, res.1 = Ret x → x = (mtlsEndpoint, None)) ∧
   (∀ f, Form r = Some f →
      Form res.2 = Some (<["client_id" := [ClientID cconfig]]> f)) ∧
   (∀ f c, Form r = Some f → leaf_certificate hc = Some c →
      res = (Ret (mtlsEndpoint, None),
             set_Cert (set_Form r (Some (<["client_id" := [ClientID cconfig]]> f))) c))) ∧
  (AuthMethod cconfig ∉ [ClientSecretPostAuthMethod; ClientSecretJwtAuthMethod;
                         PrivateKeyJwtAuthMethod; TLSClientAuthMethod;
                         SelfSignedTLSAuthMethod] →
   res = (Ret (endpoint, None), r)).
Proof.
  intros res. subst res. split; [by apply (bool_decide_unpack _)|].
  unfold AuthenticateClient. split_and!.
  - intros ->. rewrite decide_True by done. split.
    + apply (step_keeps_mbind _ _ _ _ _); [apply step_keeps_Form_Set; repeat constructor|].
      intros _.
      apply (step_keeps_mbind _ _ _ _ _); [apply step_keeps_Form_Set; repeat constructor|].
      intros _. apply step_keeps_mret.
    + intros f HF. unfold mbind, Form_Set_, Form_Set, mret. rewrite HF. simpl.
      done.
  - intros ->. done.
  - intros Hm. unfold signer_of. destruct Hm as [-> | ->]; simpl.
    + split_and!.
      * apply step_keeps_authenticate_jwt.
      * intros. by apply authenticate_jwt_signed.
      * intros. by eapply authenticate_jwt_failed.
    + split_and!.
      * apply step_keeps_authenticate_jwt.
      * intros. by apply authenticate_jwt_signed.
      * intros. by eapply authenticate_jwt_failed.
  - intros Hm.
    rewrite decide_False by (destruct Hm as [E | E]; by rewrite E).
    rewrite decide_False by (destruct Hm as [E | E]; by rewrite E).
    rewrite decide_False by (destruct Hm as [E | E]; by rewrite E).
    rewrite decide_True by done. split_and!.
    + apply (step_keeps_mbind _ _ _ _ _); [apply step_keeps_Form_Set; repeat constructor|].
      intros _.
      apply (step_keeps_mbind _ _ _ _ _); [apply step_keeps_read_certificate|].
      intros _. apply step_keeps_mret.
    + unfold mbind, Form_Set_, Form_Set, mret.
      destruct (Form r); simpl; [|done].
      destruct (read_certificate hc _) as [[[]|] ?]; simpl; [|done].
      by intros x [= <-].
    + intros f HF. unfold mbind, Form_Set_, Form_Set, mret. rewrite HF. simpl.
      pose proof (read_certificate_Form hc
                    (set_Form r (Some (Values_Set f "client_id" (ClientID cconfig)))))
        as HF2.
      by destruct (read_certificate hc _) as [[[]|] r2].
    + intros f c HF Hleaf. unfold mbind, Form_Set_, Form_Set, mret. rewrite HF.
      simpl. by rewrite (read_certificate_leaf _ _ c).
  - intros Hm. rewrite !not_elem_of_cons in Hm.
    destruct Hm as (?&?&?&?&?&_).
    rewrite !decide_False; [done|tauto|done..].
Qed.

(** ** [WaitForCallback] *)

Lemma http_HandleFunc_fresh (mux : ServeMux) pattern owner :
  mux !! pattern = None →
  http_HandleFunc mux pattern owner = Ret (<[pattern := owner]> mux).
Proof. intros Hm. unfold http_HandleFunc. by rewrite Hm. Qed.

Lemma http_HandleFunc_taken (mux : ServeMux) pattern owner other :
  mux !! pattern = Some other →
  http_HandleFunc mux pattern owner =
    Panic ("http: multiple registrations for " ++ pattern).
Proof. intros Hm. unfold http_HandleFunc. by rewrite Hm. Qed.

(** C8. With the handler table free and the listener up, the invocation
    that receives one callback returns the captured method and URL.  A
    non-empty [error] parameter gives the Error built from [error],
    [error_description], [error_hint] and [trace_id] and the status 400;
    otherwise the error is nil, the status is 200, and the parameters of the
    redirect are read back from the returned Request. *)
Theorem WaitForCallback_captures `{Material, NetURL} (addr : string)
    (mux : ServeMux) (cb : inbound) :
  mux !! "/callback" = None →
  ∃ request err w,
    WaitForCallback addr mux (mk_arrivals None [cb]) =
      (Ret (mk_http_Server addr, Returned request err [w]),
       <["/callback" := addr]> mux) ∧
    Method request = in_Method cb ∧
    URL_ request = Some (in_URL cb) ∧
    (Values_Get (URL_Query (in_URL cb)) "error" ≠ "" →
     err = Some (ErrProvider
                   {| ErrorCode := Values_Get (URL_Query (in_URL cb)) "error";
                      Description :=
                        Values_Get (URL_Query (in_URL cb)) "error_description";
                      Hint := Values_Get (URL_Query (in_URL cb)) "error_hint";
                      TraceID := Values_Get (URL_Query (in_URL cb)) "trace_id" |}) ∧
     w_Status w = StatusBadRequest) ∧
    (Values_Get (URL_Query (in_URL cb)) "error" = "" →
     err = None ∧ w_Status w = StatusOK ∧
     ∀ key, Values_Get (URL_Query (in_URL cb)) key ≠ "" →
            Get request key = Ret (Values_Get (URL_Query (in_URL cb)) key)).
Proof.
  intros Hfree. unfold WaitForCallback.
  rewrite http_HandleFunc_fresh by done. simpl.
  unfold callback_handler. simpl.
  destruct (decide (Values_Get (URL_Query (in_URL cb)) "error" = "")) as [He|He].
  - eexists _, _, _. split; [done|]. split_and!; try done.
    intros _. split_and!; try done.
    intros key Hkey. unfold Get. simpl. rewrite lookup_empty.
    by rewrite decide_False.
  - eexists _, _, _. split; [done|]. by split_and!.
Qed.

(** C2, as the code has it.  An invocation that finds no [/callback]
    handler in the default handler table of the process does not panic; it
    builds a server of its own for its address, and it registers its
    handler in that process-wide table, where the registration stays when
    the invocation is over; the other patterns of the table are left as
    they were. *)
Theorem WaitForCallback_registers_globally `{Material, NetURL} (addr : string)
    (mux : ServeMux) (env : arrivals) :
  mux !! "/callback" = None →
  ∃ how,
    WaitForCallback addr mux env =
      (Ret (mk_http_Server addr, how), <["/callback" := addr]> mux) ∧
    (WaitForCallback addr mux env).2 !! "/callback" = Some addr ∧
    ∀ pattern, pattern ≠ "/callback" →
      (WaitForCallback addr mux env).2 !! pattern = mux !! pattern.
Proof.
  intros Hfree. unfold WaitForCallback.
  rewrite http_HandleFunc_fresh by done.
  destruct (listen_error env) as [serr|].
  { eexists. split; [done|]. simpl. split; [by rewrite lookup_insert_eq|].
    intros p Hp. by rewrite lookup_insert_ne. }
  destruct (callbacks env) as [|cb rs].
  { eexists. split; [done|]. simpl. split; [by rewrite lookup_insert_eq|].
    intros p Hp. by rewrite lookup_insert_ne. }
  destruct (serve (cb :: rs) (zero_Request, None)) as [[request err] ws].
  eexists. split; [done|]. simpl. split; [by rewrite lookup_insert_eq|].
  intros p Hp. by rewrite lookup_insert_ne.
Qed.

(** ** [RequestAuthorization] *)

(** The identifiers the next [n] calls of [shortuuid.New] return. *)
Fixpoint draws `{ShortUUID} (n : nat) (g : Entropy) : list string :=
  match n with
  | O => []
  | S n => let '(id, g) := shortuuid_New g in id :: draws n g
  end.

(** The query parameters of an authorization request are the five of
    lines 55-61. *)
Lemma authorization_values_dom addr cconfig state nonce :
  dom (authorization_values addr cconfig state nonce)
  = ({["client_id"; "response_type"; "redirect_uri"; "state"; "nonce"]} : gset string).
Proof.
  unfold authorization_values. rewrite !dom_insert_L, dom_empty_L. set_solver.
Qed.

Lemma authorization_values_lookup addr cconfig state nonce :
  let values := authorization_values addr cconfig state nonce in
  Values_Get values "client_id" = ClientID cconfig ∧
  Values_Get values "response_type" = "code" ∧
  Values_Get values "redirect_uri" = "http://" ++ addr ++ "/callback" ∧
  Values_Get values "state" = state ∧
  Values_Get values "nonce" = nonce.
Proof.
  unfold authorization_values, Values_Get. split_and!; by simplify_map_eq.
Qed.

Lemma RequestAuthorization_malformed `{Material, NetURL, ShortUUID} addr cconfig sconfig g err :
  url_Parse (AuthorizationEndpoint sconfig) = inl err →
  RequestAuthorization addr cconfig sconfig g =
    ((zero_Request,
      Some (ErrWrap (ErrExt err) "failed to parse authorization endpoint")), g).
Proof. intros HP. unfold RequestAuthorization. by rewrite HP. Qed.

Lemma RequestAuthorization_parsed `{Material, NetURL, ShortUUID} addr cconfig sconfig g u :
  url_Parse (AuthorizationEndpoint sconfig) = inr u →
  ∃ state nonce g',
    draws 2 g = [state; nonce] ∧
    (∀ n, draws n g' = drop 2 (draws (2 + n) g)) ∧
    RequestAuthorization addr cconfig sconfig g =
      ((set_Method
          (set_URL zero_Request
             (Some (set_RawQuery u
                      (Values_Encode (authorization_values addr cconfig state nonce)))))
          MethodGet, None), g').
Proof.
  intros HP. unfold RequestAuthorization. rewrite HP. simpl.
  destruct (shortuuid_New g) as [state g1].
  destruct (shortuuid_New g1) as [nonce g2].
  exists state, nonce, g2. split_and!; [done| |done].
  intros n. simpl. by rewrite drop_0.
Qed.

Lemma NoDup_four (a b c d : string) :
  NoDup [a; b; c; d] → a ≠ c ∧ b ≠ d ∧ a ≠ b ∧ c ≠ d ∧ a ≠ d ∧ b ≠ c.
Proof.
  rewrite !NoDup_cons, !not_elem_of_cons. intros (Ha & Hb & Hc & _).
  destruct Ha as (?&?&?&_), Hb as (?&?&_), Hc as (?&_). by split_and!.
Qed.

(** C9. [RequestAuthorization] returns an error exactly when the
    authorization endpoint does not parse.  Otherwise it returns a GET
    request for the parsed endpoint whose query encodes five parameters:
    [client_id], [response_type=code], [redirect_uri] built from the
    callback address, and [state] and [nonce], the next two identifiers of
    the generator.  When the generator does not repeat itself over four
    draws, two calls in a row with the same inputs emit different [state]s
    and different [nonce]s. *)
Theorem RequestAuthorization_request `{Material, NetURL, ShortUUID}
    (addr : string) (cconfig : ClientConfig) (sconfig : ServerConfig) (g : Entropy) :
  (is_Some (RequestAuthorization addr cconfig sconfig g).1.2 ↔
   ∃ err, url_Parse (AuthorizationEndpoint sconfig) = inl err) ∧
  (∀ u, url_Parse (AuthorizationEndpoint sconfig) = inr u →
     ∃ r state nonce g',
       RequestAuthorization addr cconfig sconfig g = ((r, None), g') ∧
       draws 2 g = [state; nonce] ∧
       Method r = MethodGet ∧
       URL_ r = Some (set_RawQuery u
                        (Values_Encode (authorization_values addr cconfig state nonce))) ∧
       dom (authorization_values addr cconfig state nonce)
       = ({["client_id"; "response_type"; "redirect_uri"; "state"; "nonce"]}
            : gset string) ∧
       Values_Get (authorization_values addr cconfig state nonce) "client_id"
       = ClientID cconfig ∧
       Values_Get (authorization_values addr cconfig state nonce) "response_type"
       = "code" ∧
       Values_Get (authorization_values addr cconfig state nonce) "redirect_uri"
       = "http://" ++ addr ++ "/callback" ∧
       Values_Get (authorization_values addr cconfig state nonce) "state" = state ∧
       Values_Get (authorization_values addr cconfig state nonce) "nonce" = nonce) ∧
  (∀ u, url_Parse (AuthorizationEndpoint sconfig) = inr u →
     NoDup (draws 4 g) →
     ∃ r1 state1 nonce1 g1 r2 state2 nonce2 g2,
       RequestAuthorization addr cconfig sconfig g = ((r1, None), g1) ∧
       RequestAuthorization addr cconfig sconfig g1 = ((r2, None), g2) ∧
       URL_ r1 = Some (set_RawQuery u
                         (Values_Encode (authorization_values addr cconfig state1 nonce1))) ∧
       URL_ r2 = Some (set_RawQuery u
                         (Values_Encode (authorization_values addr cconfig state2 nonce2))) ∧
       state1 ≠ state2 ∧ nonce1 ≠ nonce2 ∧
       state1 ≠ nonce1 ∧ state2 ≠ nonce2 ∧ state1 ≠ nonce2 ∧ nonce1 ≠ state2).
Proof.
  split_and!.
  - destruct (url_Parse (AuthorizationEndpoint sconfig)) as [err|u] eqn:E.
    + rewrite (RequestAuthorization_malformed _ _ _ _ err) by done. simpl.
      split; eauto.
    + destruct (RequestAuthorization_parsed addr cconfig sconfig g u E)
        as (state & nonce & g' & _ & _ & ->). simpl.
      split; [by intros [? ?]|by intros [? ?]].
  - intros u E.
    destruct (RequestAuthorization_parsed addr cconfig sconfig g u E)
      as (state & nonce & g' & Hd & _ & ->).
    pose proof (authorization_values_lookup addr cconfig state nonce)
      as (?&?&?&?&?).
    eexists _, state, nonce, g'.
    split_and!; first [done | apply authorization_values_dom].
  - intros u E Hnd.
    destruct (RequestAuthorization_parsed addr cconfig sconfig g u E)
      as (state1 & nonce1 & g1 & Hd1 & Hrest & Hcall1).
    destruct (RequestAuthorization_parsed addr cconfig sconfig g1 u E)
      as (state2 & nonce2 & g2 & Hd2 & _ & Hcall2).
    assert (draws 4 g = [state1; nonce1; state2; nonce2]) as Hall.
    { pose proof (Hrest 2%nat) as Hd. rewrite Hd2 in Hd. revert Hd1 Hd. simpl.
      destruct (shortuuid_New g) as [a ga]. destruct (shortuuid_New ga) as [b gb].
      destruct (shortuuid_New gb) as [c gc]. destruct (shortuuid_New gc) as [d gd].
      simpl. by intros [= -> ->] [= -> ->]. }
    rewrite Hall in Hnd.
    destruct (NoDup_four _ _ _ _ Hnd) as (?&?&?&?&?&?).
    eexists _, state1, nonce1, g1, _, state2, nonce2, g2.
    split; [exact Hcall1|]. split; [exact Hcall2|].
    by split_and!.
Qed.

(** ** [RequestToken] *)

(** C5. Once the token request has been built and sent: a response whose
    status is not 200 gives the provider Error decoded from its body, with
    the zero TokenResponse; a 200 response whose body decodes gives the
    decoded TokenResponse and a nil error; a 200 response whose body does not
    decode gives the decoder's error wrapped as [failed to parse exchange
    response], which no transport error is, a transport error being
    returned as the client reported it.  The Request returned is in each
    case the one built, its headers as the client left them. *)
Theorem RequestToken_response `{Material, NetURL, Codec} (cconfig : ClientConfig)
    (sconfig : ServerConfig) (hc : http_Client) (opts : list RequestTokenOption)
    (request : Request) (req : http_Request) :
  token_request cconfig sconfig opts = (request, inr req) →
  (∀ resp, Do hc req = inr resp → StatusCode resp ≠ StatusOK →
     RequestToken cconfig sconfig hc opts =
       (set_Headers request (Do_Header hc req), zero_TokenResponse,
        Some (ParseError resp)) ∧
     ParseError resp = ErrProvider (json_decode_Error (Body resp))) ∧
  (∀ resp response,
     Do hc req = inr resp → StatusCode resp = StatusOK → BodyError resp = None →
     json_Unmarshal_TokenResponse (Body resp) zero_TokenResponse = (response, None) →
     RequestToken cconfig sconfig hc opts =
       (set_Headers request (Do_Header hc req), response, None)) ∧
  (∀ resp response err,
     Do hc req = inr resp → StatusCode resp = StatusOK → BodyError resp = None →
     json_Unmarshal_TokenResponse (Body resp) zero_TokenResponse = (response, Some err) →
     RequestToken cconfig sconfig hc opts =
       (set_Headers request (Do_Header hc req), response,
        Some (ErrWrap (ErrExt err) "failed to parse exchange response")) ∧
     ∀ transport, ErrWrap (ErrExt err) "failed to parse exchange response"
                  ≠ ErrExt transport) ∧
  (∀ transport, Do hc req = inl transport →
     RequestToken cconfig sconfig hc opts =
       (set_Headers request (Do_Header hc req), zero_TokenResponse,
        Some (ErrExt transport))).
Proof.
  intros Hreq. unfold RequestToken, exchange. rewrite Hreq. split_and!.
  - intros resp -> Hs. by rewrite decide_False.
  - intros resp response -> Hs Hb Hj. rewrite decide_True by done.
    by rewrite Hb, Hj.
  - intros resp response err -> Hs Hb Hj. rewrite decide_True by done.
    by rewrite Hb, Hj.
  - by intros transport ->.
Qed.

Lemma token_form_agrees (cconfig : ClientConfig) (params : RequestTokenParams) :
  token_form cconfig params =
    if decide (AuthMethod cconfig = ClientSecretPostAuthMethod) then
      <["client_secret" := [ClientSecret cconfig]]>
        (<["client_id" := [ClientID cconfig]]> (spec_token_form cconfig params))
    else spec_token_form cconfig params.
Proof.
  unfold token_form, spec_token_form, Values_Set.
  repeat case_decide; try done.
  all: apply map_eq; intros k.
  all: repeat (rewrite lookup_insert; case_decide; subst; try done).
Qed.

Lemma token_form_lookup (cconfig : ClientConfig) (params : RequestTokenParams) :
  token_form cconfig params !! "grant_type" = Some [GrantType cconfig] ∧
  token_form cconfig params !! "client_id" =
    (if decide (AuthMethod cconfig = ClientSecretPostAuthMethod)
     then Some [ClientID cconfig] else None) ∧
  token_form cconfig params !! "client_secret" =
    (if decide (AuthMethod cconfig = ClientSecretPostAuthMethod)
     then Some [ClientSecret cconfig] else None) ∧
  token_form cconfig params !! "redirect_uri" =
    (if decide (RedirectURL params = "") then None else Some [RedirectURL params]) ∧
  token_form cconfig params !! "code" =
    (if decide (Code params = "") then None else Some [Code params]) ∧
  dom (token_form cconfig params) ⊆
    ({["grant_type"; "client_id"; "client_secret"; "redirect_uri"; "code"]}
       : gset string).
Proof.
  unfold token_form, Values_Set.
  split_and!; repeat case_decide; simplify_map_eq; try done.
  all: rewrite ?dom_insert_L, ?dom_singleton_L; set_solver.
Qed.

(** The transport request of line 177 with the headers of lines 186-190. *)
Lemma token_request_sent `{Material, NetURL, Codec} cconfig sconfig opts req :
  (token_request cconfig sconfig opts).2 = inr req →
  url_Parse (TokenEndpoint sconfig) = inr (req_URL req) ∧
  req_Method req = MethodPost ∧
  req_Body req = Values_Encode (token_form cconfig (apply_options opts)) ∧
  req_Header req !! "Content-Type" = Some ["application/x-www-form-urlencoded"] ∧
  req_Header req !! "Authorization" =
    (if decide (AuthMethod cconfig = ClientSecretBasicAuthMethod)
     then Some ["Basic " ++ basicAuth (ClientID cconfig) (ClientSecret cconfig)]
     else None).
Proof.
  unfold token_request, http_NewRequest.
  destruct (url_Parse (TokenEndpoint sconfig)) as [err|u]; [done|].
  simpl. intros [= <-]. unfold add_Header, SetBasicAuth, Header_Add, Header_Set.
  case_decide; simpl; split_and!; by simplify_map_eq.
Qed.

(** C1, as the code has it.  [RequestToken] builds its form itself:
    [grant_type], [client_id] and [client_secret] for [client_secret_post]
    and for no other method, [redirect_uri] and [code] when they are given,
    and nothing else.  It POSTs to the token endpoint whatever the method,
    with HTTP Basic credentials exactly for [client_secret_basic].  For
    every method other than the JWT and the TLS ones this is the request
    the specification describes, the one built by invoking
    [AuthenticateClient]. *)
Theorem RequestToken_request `{Signing, NetURL, Codec} (cconfig : ClientConfig)
    (sconfig : ServerConfig) (hc : http_Client) (opts : list RequestTokenOption) :
  Form (token_request cconfig sconfig opts).1
  = Some (token_form cconfig (apply_options opts)) ∧
  (token_form cconfig (apply_options opts) !! "grant_type"
   = Some [GrantType cconfig] ∧
   token_form cconfig (apply_options opts) !! "client_id" =
     (if decide (AuthMethod cconfig = ClientSecretPostAuthMethod)
      then Some [ClientID cconfig] else None) ∧
   token_form cconfig (apply_options opts) !! "client_secret" =
     (if decide (AuthMethod cconfig = ClientSecretPostAuthMethod)
      then Some [ClientSecret cconfig] else None) ∧
   token_form cconfig (apply_options opts) !! "redirect_uri" =
     (if decide (RedirectURL (apply_options opts) = "") then None
      else Some [RedirectURL (apply_options opts)]) ∧
   token_form cconfig (apply_options opts) !! "code" =
     (if decide (Code (apply_options opts) = "") then None
      else Some [Code (apply_options opts)]) ∧
   dom (token_form cconfig (apply_options opts)) ⊆
     ({["grant_type"; "client_id"; "client_secret"; "redirect_uri"; "code"]}
        : gset string)) ∧
  (∀ req, (token_request cconfig sconfig opts).2 = inr req →
     url_Parse (TokenEndpoint sconfig) = inr (req_URL req) ∧
     req_Method req = MethodPost ∧
     req_Body req = Values_Encode (token_form cconfig (apply_options opts)) ∧
     req_Header req !! "Content-Type" = Some ["application/x-www-form-urlencoded"] ∧
     req_Header req !! "Authorization" =
       (if decide (AuthMethod cconfig = ClientSecretBasicAuthMethod)
        then Some ["Basic " ++ basicAuth (ClientID cconfig) (ClientSecret cconfig)]
        else None)) ∧
  (AuthMethod cconfig ∉ [ClientSecretJwtAuthMethod; PrivateKeyJwtAuthMethod;
                         TLSClientAuthMethod; SelfSignedTLSAuthMethod] →
   spec_token_request cconfig sconfig hc opts
   = Ret (token_request cconfig sconfig opts)).
Proof.
  split; [|split; [|split]].
  - unfold token_request.
    by destruct (http_NewRequest _ _ _).
  - apply token_form_lookup.
  - apply token_request_sent.
  - intros Hm. rewrite !not_elem_of_cons in Hm. destruct Hm as (?&?&?&?&_).
    unfold spec_token_request, token_request, AuthenticateClient.
    rewrite token_form_agrees.
    destruct (decide (AuthMethod cconfig = ClientSecretPostAuthMethod)) as [Hp|Hp].
    + unfold mbind, Form_Set_, Form_Set, mret. simpl.
      unfold Values_Set.
      by destruct (http_NewRequest _ _ _).
    + rewrite !decide_False; [|tauto|done..].
      unfold mret. simpl.
      by destruct (http_NewRequest _ _ _).
Qed.

(** * Further properties *)

(** ** The options of [RequestToken] *)

Lemma apply_options_app (opts1 opts2 : list RequestTokenOption) :
  apply_options (opts1 ++ opts2)
  = fold_left (fun params opt => opt params) opts2 (apply_options opts1).
Proof. unfold apply_options. apply fold_left_app. Qed.

(** X1. Whatever options came before, a [WithAuthorizationCode] applied
    last fixes the code and leaves the redirect URL as it stood, a
    [WithRedirectURL] applied last fixes the redirect URL and leaves the
    code; so of two options of one kind the later wins, and options of the
    two kinds can be given in either order. *)
Theorem apply_options_last_wins (opts : list RequestTokenOption) (code url : string) :
  apply_options (opts ++ [WithAuthorizationCode code])
  = {| Code := code; RedirectURL := RedirectURL (apply_options opts) |} ∧
  apply_options (opts ++ [WithRedirectURL url])
  = {| Code := Code (apply_options opts); RedirectURL := url |} ∧
  apply_options (opts ++ [WithAuthorizationCode code; WithRedirectURL url])
  = apply_options (opts ++ [WithRedirectURL url; WithAuthorizationCode code]).
Proof.
  rewrite !apply_options_app. by split_and!.
Qed.

(** X2. The [code] field of the token form is the code of the last
    [WithAuthorizationCode], and is left out when that code is empty, also
    when an earlier option gave one; likewise [redirect_uri] and
    [WithRedirectURL].  Without options the form has neither field. *)
Theorem token_form_follows_last_option (cconfig : ClientConfig)
    (opts : list RequestTokenOption) (code url : string) :
  token_form cconfig (apply_options (opts ++ [WithAuthorizationCode code])) !! "code"
  = (if decide (code = "") then None else Some [code]) ∧
  token_form cconfig (apply_options (opts ++ [WithAuthorizationCode code])) !! "redirect_uri"
  = token_form cconfig (apply_options opts) !! "redirect_uri" ∧
  token_form cconfig (apply_options (opts ++ [WithRedirectURL url])) !! "redirect_uri"
  = (if decide (url = "") then None else Some [url]) ∧
  token_form cconfig (apply_options (opts ++ [WithRedirectURL url])) !! "code"
  = token_form cconfig (apply_options opts) !! "code" ∧
  token_form cconfig (apply_options []) !! "code" = None ∧
  token_form cconfig (apply_options []) !! "redirect_uri" = None.
Proof.
  rewrite !apply_options_app. simpl.
  unfold WithAuthorizationCode, WithRedirectURL.
  pose proof (token_form_lookup cconfig
                {| Code := code; RedirectURL := RedirectURL (apply_options opts) |})
    as (_ & _ & _ & Hr1 & Hc1 & _).
  pose proof (token_form_lookup cconfig
                {| Code := Code (apply_options opts); RedirectURL := url |})
    as (_ & _ & _ & Hr2 & Hc2 & _).
  pose proof (token_form_lookup cconfig (apply_options opts))
    as (_ & _ & _ & Hr & Hc & _).
  pose proof (token_form_lookup cconfig (apply_options []))
    as (_ & _ & _ & Hr0 & Hc0 & _).
  split_and!; [exact Hc1| by rewrite Hr1, Hr |exact Hr2| by rewrite Hc2, Hc
              |exact Hc0|exact Hr0].
Qed.

(** ** [RequestToken]: what comes back *)

Lemma RequestToken_Request `{Material, NetURL, Codec} (cconfig : ClientConfig)
    (sconfig : ServerConfig) (hc : http_Client) (opts : list RequestTokenOption) :
  (RequestToken cconfig sconfig hc opts).1.1 =
    match (token_request cconfig sconfig opts).2 with
    | inl _ => (token_request cconfig sconfig opts).1
    | inr req => set_Headers (token_request cconfig sconfig opts).1 (Do_Header hc req)
    end.
Proof.
  unfold RequestToken.
  destruct (token_request cconfig sconfig opts) as [request [err|req]]; [done|].
  by destruct (exchange hc req).
Qed.

(** X3. Of the Request that [RequestToken] returns, the headers alone can
    depend on the HTTP client: the form, the method, the URL, the claim
    map, the key and the certificate are settled before the exchange and
    are the same for every client and every answer.  When the token
    endpoint does not parse, no request is sent: the Request carries the
    form alone, the TokenResponse is zero and the error is the URL error.
    When it parses, the Request carries the form, the method POST and the
    parsed URL, and its headers are the header map of the request sent, as
    the client left it; a client that leaves that map alone returns the
    Request as it was built, [Content-Type] included. *)
Theorem RequestToken_Request_settled `{Material, NetURL, Codec}
    (cconfig : ClientConfig) (sconfig : ServerConfig)
    (opts : list RequestTokenOption) :
  (∀ hc hc',
     Form (RequestToken cconfig sconfig hc opts).1.1
     = Form (RequestToken cconfig sconfig hc' opts).1.1 ∧
     Method (RequestToken cconfig sconfig hc opts).1.1
     = Method (RequestToken cconfig sconfig hc' opts).1.1 ∧
     URL_ (RequestToken cconfig sconfig hc opts).1.1
     = URL_ (RequestToken cconfig sconfig hc' opts).1.1 ∧
     JARM (RequestToken cconfig sconfig hc opts).1.1
     = JARM (RequestToken cconfig sconfig hc' opts).1.1 ∧
     Key_ (RequestToken cconfig sconfig hc opts).1.1
     = Key_ (RequestToken cconfig sconfig hc' opts).1.1 ∧
     Cert (RequestToken cconfig sconfig hc opts).1.1
     = Cert (RequestToken cconfig sconfig hc' opts).1.1) ∧
  (∀ err hc, url_Parse (TokenEndpoint sconfig) = inl err →
     RequestToken cconfig sconfig hc opts =
       (set_Form zero_Request (Some (token_form cconfig (apply_options opts))),
        zero_TokenResponse, Some (ErrExt err))) ∧
  (∀ u hc, url_Parse (TokenEndpoint sconfig) = inr u →
     Form (RequestToken cconfig sconfig hc opts).1.1
     = Some (token_form cconfig (apply_options opts)) ∧
     Method (RequestToken cconfig sconfig hc opts).1.1 = MethodPost ∧
     URL_ (RequestToken cconfig sconfig hc opts).1.1 = Some u ∧
     JARM (RequestToken cconfig sconfig hc opts).1.1 = ∅ ∧
     Key_ (RequestToken cconfig sconfig hc opts).1.1 = None ∧
     Cert (RequestToken cconfig sconfig hc opts).1.1 = None ∧
     ∃ req,
       (token_request cconfig sconfig opts).2 = inr req ∧
       Headers (RequestToken cconfig sconfig hc opts).1.1 = Do_Header hc req ∧
       (Do_Header hc req = req_Header req →
        (RequestToken cconfig sconfig hc opts).1.1
        = (token_request cconfig sconfig opts).1 ∧
        Headers (RequestToken cconfig sconfig hc opts).1.1 !! "Content-Type"
        = Some ["application/x-www-form-urlencoded"])).
Proof.
  split_and!.
  - intros hc hc'. rewrite !RequestToken_Request.
    by destruct ((token_request cconfig sconfig opts).2).
  - intros err hc Hp. unfold RequestToken, token_request, http_NewRequest.
    by rewrite Hp.
  - intros u hc Hp. rewrite RequestToken_Request.
    pose proof (token_request_sent cconfig sconfig opts) as Hsent.
    destruct (token_request cconfig sconfig opts) as [request [err|req]] eqn:Htr.
    { revert Htr. unfold token_request, http_NewRequest. by rewrite Hp. }
    destruct (Hsent req eq_refl) as (_ & _ & _ & HCT & _).
    assert (Form request = Some (token_form cconfig (apply_options opts)) ∧
            Method request = MethodPost ∧ URL_ request = Some u ∧
            JARM request = ∅ ∧ Key_ request = None ∧ Cert request = None ∧
            Headers request = req_Header req) as (?&?&?&?&?&?&HH).
    { revert Htr. unfold token_request, http_NewRequest. rewrite Hp.
      case_decide; by intros [= <- <-]. }
    simpl. split_and!; try done.
    exists req. split; [done|]. split; [done|].
    intros Hsame. rewrite Hsame, <-HH. split; [by destruct request|].
    by rewrite HH.
Qed.

(** X4. [RequestToken] returns a nil error in one case only: the token
    request was built, the client got a response, its status was 200, its
    body was read to the end and decoded without error; the TokenResponse is
    then the decoded one.  In every other case but a failed decoding the
    TokenResponse is zero. *)
Theorem RequestToken_succeeds_iff `{Material, NetURL, Codec} (cconfig : ClientConfig)
    (sconfig : ServerConfig) (hc : http_Client) (opts : list RequestTokenOption)
    (response : TokenResponse) :
  ((∃ request, RequestToken cconfig sconfig hc opts = (request, response, None)) ↔
   (∃ req resp,
      (token_request cconfig sconfig opts).2 = inr req ∧
      Do hc req = inr resp ∧ StatusCode resp = StatusOK ∧ BodyError resp = None ∧
      json_Unmarshal_TokenResponse (Body resp) zero_TokenResponse = (response, None))) ∧
  (∀ request err,
     RequestToken cconfig sconfig hc opts = (request, response, Some err) →
     response = zero_TokenResponse ∨
     ∃ cause, err = ErrWrap (ErrExt cause) "failed to parse exchange response").
Proof.
  unfold RequestToken, exchange.
  destruct (token_request cconfig sconfig opts) as [request [err|req]]; simpl.
  { split.
    - split; [by intros [? ?]|by intros (? & ? & ? & _)].
    - intros ? ? [= _ <- _]. by left. }
  destruct (Do hc req) as [transport|resp] eqn:HDo.
  { split.
    - split; [by intros [? ?]|].
      intros (? & ? & [= <-] & Hd & _). congruence.
    - intros ? ? [= _ <- _]. by left. }
  destruct (decide (StatusCode resp = StatusOK)) as [Hs|Hs].
  2:{ split.
      - split; [by intros [? ?]|].
        intros (? & resp' & [= <-] & Hd & Hs' & _). congruence.
      - intros ? ? [= _ <- _]. by left. }
  destruct (BodyError resp) as [rerr|] eqn:Hb.
  { split.
    - split; [by intros [? ?]|].
      intros (? & resp' & [= <-] & Hd & _ & Hb' & _). congruence.
    - intros ? ? [= _ <- _]. by left. }
  destruct (json_Unmarshal_TokenResponse (Body resp) zero_TokenResponse)
    as [decoded [jerr|]] eqn:Hj.
  - split.
    + split; [by intros [? ?]|].
      intros (? & resp' & [= <-] & Hd & _ & _ & Hj'). congruence.
    + intros ? ? [= _ _ <-]. right. by eexists.
  - split; [|by intros ? ? ?].
    split.
    + intros [? [= _ <-]]. exists req, resp. by rewrite HDo.
    + intros (? & resp' & [= <-] & Hd & _ & _ & Hj').
      rewrite HDo in Hd. injection Hd as <-. rewrite Hj in Hj'.
      injection Hj' as <-. by eexists.
Qed.

(** ** [Request.AuthenticateClient]: edges and repetition *)

(** What [read_certificate] does is decided by the client alone: it leaves
    the Request alone, or assigns one certificate value, or panics. *)
Lemma read_certificate_cases `{Signing} (hc : http_Client) :
  (∀ r : Request, read_certificate hc r = (Ret tt, r)) ∨
  (∃ c, ∀ r : Request, read_certificate hc r = (Ret tt, set_Cert r c)) ∨
  (∃ msg, ∀ r : Request, read_certificate hc r = (Panic msg, r)).
Proof.
  unfold read_certificate.
  destruct (Transport hc) as [|tr|]; [by left| |by left].
  destruct (TLSClientConfig tr) as [cfg|]; [|right; right; by eexists].
  destruct (Certificates cfg) as [|ch ?]; [by left|].
  destruct (Certificate_ ch) as [|der ?]; [right; right; by eexists|].
  right; left. destruct (x509_ParseCertificate der); by eexists.
Qed.

Lemma insert_twice_pair (f : Values) k1 v1 k2 v2 :
  <[k2 := v2]> (<[k1 := v1]> (<[k2 := v2]> (<[k1 := v1]> f)))
  = <[k2 := v2]> (<[k1 := v1]> f).
Proof.
  apply map_eq. intros k.
  repeat (rewrite lookup_insert; case_decide; subst; try done).
Qed.

(** X5. For every method that signs nothing, authenticating a Request a
    second time changes nothing: when [AuthenticateClient] has returned, the
    same call on the Request it left returns the same endpoint and leaves
    that Request as it is ([Form.Set] replaces, it does not append). *)
Theorem AuthenticateClient_twice `{Signing} (r r1 : Request)
    (endpoint mtlsEndpoint : string) (cconfig : ClientConfig)
    (sconfig : ServerConfig) (hc : http_Client) (x : string * option error) :
  AuthMethod cconfig ≠ ClientSecretJwtAuthMethod →
  AuthMethod cconfig ≠ PrivateKeyJwtAuthMethod →
  AuthenticateClient endpoint mtlsEndpoint cconfig sconfig hc r = (Ret x, r1) →
  AuthenticateClient endpoint mtlsEndpoint cconfig sconfig hc r1 = (Ret x, r1).
Proof.
  intros Hj Hp. unfold AuthenticateClient.
  destruct (decide (AuthMethod cconfig = ClientSecretPostAuthMethod)).
  { unfold mbind, Form_Set_, Form_Set, mret, Values_Set.
    destruct (Form r) as [f|] eqn:HF; [|done]. simpl.
    intros [= <- <-]. simpl. by rewrite insert_twice_pair. }
  rewrite !decide_False by done.
  destruct (decide (AuthMethod cconfig = TLSClientAuthMethod
                    ∨ AuthMethod cconfig = SelfSignedTLSAuthMethod));
    [|unfold mret; by intros [= <- <-]].
  unfold mbind, Form_Set_, Form_Set, mret, Values_Set.
  destruct (Form r) as [f|] eqn:HF; [|done]. simpl.
  destruct (read_certificate_cases hc) as [Hrc|[[c Hrc]|[msg Hrc]]];
    rewrite !Hrc; [| |done].
  - intros [= <- <-]. simpl. rewrite Hrc. by rewrite insert_insert_eq.
  - intros [= <- <-]. simpl. rewrite Hrc. by rewrite insert_insert_eq.
Qed.

(** X6. On a Request whose form is nil, every method that writes a form
    field panics on the write: [client_secret_post] and the TLS methods at
    once, leaving the Request as it was; the JWT methods after a successful
    signing, with the key already stored in the Request.  A failed signing
    returns its error and does not reach the write. *)
Theorem AuthenticateClient_nil_Form `{Signing} (r : Request)
    (endpoint mtlsEndpoint : string) (cconfig : ClientConfig)
    (sconfig : ServerConfig) (hc : http_Client) :
  Form r = None →
  (AuthMethod cconfig = ClientSecretPostAuthMethod ∨
   AuthMethod cconfig = TLSClientAuthMethod ∨
   AuthMethod cconfig = SelfSignedTLSAuthMethod →
   AuthenticateClient endpoint mtlsEndpoint cconfig sconfig hc r
   = (Panic nil_map_write, r)) ∧
  (AuthMethod cconfig = ClientSecretJwtAuthMethod ∨
   AuthMethod cconfig = PrivateKeyJwtAuthMethod →
   (∀ assertion key,
      SignJWT (ClientAssertionClaims sconfig cconfig) (signer_of cconfig hc)
      = (assertion, key, None) →
      AuthenticateClient endpoint mtlsEndpoint cconfig sconfig hc r
      = (Panic nil_map_write, set_Key r key)) ∧
   (∀ assertion key e,
      SignJWT (ClientAssertionClaims sconfig cconfig) (signer_of cconfig hc)
      = (assertion, key, Some e) →
      AuthenticateClient endpoint mtlsEndpoint cconfig sconfig hc r
      = (Ret (endpoint, Some e), set_Key r key))).
Proof.
  intros HF. unfold AuthenticateClient, signer_of. split.
  - intros [-> | [-> | ->]]; simpl;
      unfold mbind, Form_Set_, Form_Set; by rewrite HF.
  - intros [-> | ->]; simpl; unfold authenticate_jwt; split.
    + intros assertion key ->.
      unfold mbind, assign_Key, Form_Set_, Form_Set. simpl. by rewrite HF.
    + by intros assertion key e ->.
    + intros assertion key ->.
      unfold mbind, assign_Key, Form_Set_, Form_Set. simpl. by rewrite HF.
    + by intros assertion key e ->.
Qed.

(** X7. The TLS methods on a Request with a form, by what the client's
    transport is.  Not an [http.Transport], or one without configured
    certificates: [client_id] is written, the certificate of the Request is
    left alone, the mutual-TLS endpoint is returned.  An [http.Transport]
    without a TLS configuration, or whose first chain is empty: a panic,
    after [client_id] has been written.  A leaf that does not parse: the
    certificate of the Request is set to nil. *)
Theorem AuthenticateClient_TLS_transport `{Signing} (r : Request) (f : Values)
    (endpoint mtlsEndpoint : string) (cconfig : ClientConfig)
    (sconfig : ServerConfig) (hc : http_Client) :
  AuthMethod cconfig = TLSClientAuthMethod ∨
  AuthMethod cconfig = SelfSignedTLSAuthMethod →
  Form r = Some f →
  (Transport hc = NoRoundTripper ∨ Transport hc = OtherRoundTripper ∨
   (∃ tr cfg, Transport hc = StdTransport tr ∧ TLSClientConfig tr = Some cfg ∧
              Certificates cfg = []) →
   AuthenticateClient endpoint mtlsEndpoint cconfig sconfig hc r
   = (Ret (mtlsEndpoint, None),
      set_Form r (Some (<["client_id" := [ClientID cconfig]]> f)))) ∧
  (∀ tr, Transport hc = StdTransport tr → TLSClientConfig tr = None →
     AuthenticateClient endpoint mtlsEndpoint cconfig sconfig hc r
     = (Panic nil_dereference,
        set_Form r (Some (<["client_id" := [ClientID cconfig]]> f)))) ∧
  (∀ tr cfg chain chains,
     Transport hc = StdTransport tr → TLSClientConfig tr = Some cfg →
     Certificates cfg = chain :: chains → Certificate_ chain = [] →
     AuthenticateClient endpoint mtlsEndpoint cconfig sconfig hc r
     = (Panic index_out_of_range,
        set_Form r (Some (<["client_id" := [ClientID cconfig]]> f)))) ∧
  (∀ tr cfg chain chains der ders err,
     Transport hc = StdTransport tr → TLSClientConfig tr = Some cfg →
     Certificates cfg = chain :: chains → Certificate_ chain = der :: ders →
     x509_ParseCertificate der = inl err →
     AuthenticateClient endpoint mtlsEndpoint cconfig sconfig hc r
     = (Ret (mtlsEndpoint, None),
        set_Cert (set_Form r (Some (<["client_id" := [ClientID cconfig]]> f))) None)).
Proof.
  intros Hm HF. unfold AuthenticateClient.
  rewrite decide_False by (destruct Hm as [E | E]; by rewrite E).
  rewrite decide_False by (destruct Hm as [E | E]; by rewrite E).
  rewrite decide_False by (destruct Hm as [E | E]; by rewrite E).
  rewrite decide_True by done.
  unfold mbind, Form_Set_, Form_Set, mret, Values_Set, read_certificate.
  rewrite HF. simpl. split_and!.
  - intros [-> | [-> | (tr & cfg & -> & -> & ->)]]; done.
  - by intros tr -> ->.
  - by intros tr cfg chain chains -> -> -> ->.
  - by intros tr cfg chain chains der ders err -> -> -> -> ->.
Qed.

(** ** [Request.ParseJARM]: which key matters when *)

(** X8. A response that is not a nested token is handled without the
    encryption key: whether one is supplied, and which, makes no
    difference, so a signed-only response is accepted also from a caller
    who supplied a decryption key.  And a response that yields no token
    (neither parse succeeds, or the decryption fails, or the decryption key
    is missing) is answered with that error whatever the signing key, nil
    included. *)
Theorem ParseJARM_key_not_consulted `{JOSE, NetURL} (r : Request) (response : string)
    (signingKey encryptionKey : option Key) :
  Get r "response" = Ret response →
  (∀ err encryptionKey',
     jwt_ParseSignedAndEncrypted response = inl err →
     ParseJARM r signingKey encryptionKey = ParseJARM r signingKey encryptionKey') ∧
  (∀ e signingKey',
     response ≠ "" → parse_token response encryptionKey = inl e →
     ParseJARM r signingKey encryptionKey = (Ret (Some e), set_JARM r ∅) ∧
     ParseJARM r signingKey' encryptionKey = (Ret (Some e), set_JARM r ∅)) ∧
  (∀ nestedToken k err,
     response ≠ "" →
     jwt_ParseSignedAndEncrypted response = inr nestedToken →
     Nested_Decrypt nestedToken k = inl err →
     ParseJARM r signingKey (Some k)
     = (Ret (Some (ErrWrap (ErrExt err) "failed to decrypt encrypted JARM response")),
        set_JARM r ∅)).
Proof.
  intros HG. split_and!.
  - intros err ek' Hn. unfold ParseJARM. rewrite HG.
    case_decide; [done|]. unfold parse_token. by rewrite Hn.
  - intros e sk' Hne Hpt.
    rewrite !(ParseJARM_response r response) by done. by rewrite Hpt.
  - intros nestedToken k err Hne Hn Hd.
    rewrite (ParseJARM_response r response) by done.
    unfold parse_token. by rewrite Hn, Hd.
Qed.

(** ** [WaitForCallback]: more than one callback, more than one invocation *)

Definition carries_error `{NetURL} (cb : inbound) : Prop :=
  Values_Get (URL_Query (in_URL cb)) "error" ≠ "".

(** The Error the handler builds from a callback. *)
Definition callback_Error `{NetURL} (cb : inbound) : Error :=
  {| ErrorCode := Values_Get (URL_Query (in_URL cb)) "error";
     Description := Values_Get (URL_Query (in_URL cb)) "error_description";
     Hint := Values_Get (URL_Query (in_URL cb)) "error_hint";
     TraceID := Values_Get (URL_Query (in_URL cb)) "trace_id" |}.

Lemma serve_app `{Material, NetURL} (rs1 rs2 : list inbound) (c : captured) :
  serve (rs1 ++ rs2) c =
    ((serve rs2 (serve rs1 c).1).1,
     (serve rs1 c).2 ++ (serve rs2 (serve rs1 c).1).2)%list.
Proof.
  revert c. induction rs1 as [|cb rs1 IH]; intros c; simpl.
  - by destruct (serve rs2 c).
  - destruct (callback_handler cb c) as [c1 w]. rewrite IH.
    destruct (serve rs1 c1) as [c2 ws1]. simpl.
    by destruct (serve rs2 c2).
Qed.

Lemma serve_length `{Material, NetURL} (rs : list inbound) (c : captured) :
  length (serve rs c).2 = length rs.
Proof.
  revert c. induction rs as [|cb rs IH]; intros c; simpl; [done|].
  destruct (callback_handler cb c) as [c1 w]. specialize (IH c1).
  destruct (serve rs c1) as [c2 ws]. simpl in *. by rewrite IH.
Qed.

Lemma serve_quiet `{Material, NetURL} (rs : list inbound) (c : captured) :
  Forall (fun cb => ¬ carries_error cb) rs → (serve rs c).1.2 = c.2.
Proof.
  revert c. induction rs as [|cb rs IH]; intros c Hq; simpl; [done|].
  apply Forall_cons in Hq as [Hcb Hq].
  destruct (callback_handler cb c) as [c1 w] eqn:Hh.
  specialize (IH c1 Hq). destruct (serve rs c1) as [c2 ws]. simpl in *.
  rewrite IH. revert Hh. unfold callback_handler.
  case_decide as He; [by intros [= <- _]|]. by destruct Hcb.
Qed.

Lemma serve_one `{Material, NetURL} (cb : inbound) (c : captured) :
  Method (serve [cb] c).1.1 = in_Method cb ∧
  URL_ (serve [cb] c).1.1 = Some (in_URL cb) ∧
  (carries_error cb → (serve [cb] c).1.2 = Some (ErrProvider (callback_Error cb))).
Proof.
  simpl. unfold callback_handler, carries_error.
  case_decide; simpl; split_and!; done.
Qed.

Lemma WaitForCallback_served `{Material, NetURL} (addr : string) (mux : ServeMux)
    (rs : list inbound) :
  mux !! "/callback" = None → rs ≠ [] →
  WaitForCallback addr mux (mk_arrivals None rs)
  = (Ret (mk_http_Server addr,
          Returned (serve rs (zero_Request, None)).1.1
            (serve rs (zero_Request, None)).1.2 (serve rs (zero_Request, None)).2),
     <["/callback" := addr]> mux).
Proof.
  intros Hfree Hne. unfold WaitForCallback.
  rewrite http_HandleFunc_fresh by done. cbn -[serve].
  destruct rs as [|cb rs]; [done|].
  by destruct (serve (cb :: rs) (zero_Request, None)) as [[request err] ws].
Qed.

(** X9. When several callbacks reach the handler before the shutdown, it
    answers each of them, and the invocation returns the method and URL of
    the last one.  The error it returns is that of the last callback that
    carried an [error] parameter, also when callbacks without one came
    after it; it is nil only when no callback carried one. *)
Theorem WaitForCallback_several_callbacks `{Material, NetURL} (addr : string)
    (mux : ServeMux) (before : list inbound) (last : inbound) :
  mux !! "/callback" = None →
  ∃ request err ws,
    WaitForCallback addr mux (mk_arrivals None (before ++ [last])%list)
    = (Ret (mk_http_Server addr, Returned request err ws),
       <["/callback" := addr]> mux) ∧
    length ws = length (before ++ [last])%list ∧
    Method request = in_Method last ∧
    URL_ request = Some (in_URL last) ∧
    (Forall (fun cb => ¬ carries_error cb) (before ++ [last])%list → err = None) ∧
    (∀ early cb late,
       (before ++ [last] = early ++ cb :: late)%list → carries_error cb →
       Forall (fun cb => ¬ carries_error cb) late →
       err = Some (ErrProvider (callback_Error cb))).
Proof.
  intros Hfree.
  assert ((before ++ [last])%list ≠ []) as Hne by (by destruct before).
  rewrite (WaitForCallback_served addr mux _ Hfree Hne).
  eexists _, _, _. split; [done|].
  split; [apply serve_length|].
  pose proof (serve_one last (serve before (zero_Request, None)).1) as (HM & HU & _).
  split; [by rewrite serve_app|]. split; [by rewrite serve_app|].
  split.
  - intros Hq. by rewrite (serve_quiet _ (zero_Request, None) Hq).
  - intros early cb late Heq Hcb Hq.
    rewrite Heq, (serve_app early), (serve_app [cb] late). simpl fst.
    rewrite (serve_quiet late _ Hq).
    by apply (serve_one cb (serve early (zero_Request, None)).1).
Qed.

Lemma WaitForCallback_Ret_registered `{Material, NetURL} (addr : string)
    (mux mux' : ServeMux) (env : arrivals) (x : http_Server * ending) :
  WaitForCallback addr mux env = (Ret x, mux') →
  mux !! "/callback" = None ∧ mux' = <["/callback" := addr]> mux.
Proof.
  unfold WaitForCallback, http_HandleFunc.
  destruct (mux !! "/callback") as [owner|] eqn:Hm; [done|].
  destruct (listen_error env); [by intros [= _ <-]|].
  destruct (callbacks env) as [|cb rs]; [by intros [= _ <-]|].
  destruct (serve (cb :: rs) (zero_Request, None)) as [[request err] ws].
  by intros [= _ <-].
Qed.

(** X10. In one process at most one invocation gets past the registration
    of its handler: once an invocation has not panicked (it returned, or its
    listener failed to start, or it is still waiting), every later
    invocation, for whatever address, panics on registering [/callback] and
    leaves the handler table as it found it.  A listener that fails to start
    makes the invocation return the zero Request with the listener's error,
    the handler staying registered. *)
Theorem WaitForCallback_once_per_process `{Material, NetURL} (addr : string)
    (mux mux' : ServeMux) (env : arrivals) (x : http_Server * ending) :
  WaitForCallback addr mux env = (Ret x, mux') →
  (∀ addr' env',
     WaitForCallback addr' mux' env'
     = (Panic "http: multiple registrations for /callback", mux')) ∧
  (∀ serr, listen_error env = Some serr →
     x = (mk_http_Server addr, Returned zero_Request (Some (ErrExt serr)) []) ∧
     mux' !! "/callback" = Some addr).
Proof.
  intros HW.
  destruct (WaitForCallback_Ret_registered _ _ _ _ _ HW) as [Hfree ->].
  split.
  - intros addr' env'. unfold WaitForCallback.
    by rewrite (http_HandleFunc_taken _ _ _ addr) by apply lookup_insert_eq.
  - intros serr Hl. revert HW. unfold WaitForCallback.
    rewrite http_HandleFunc_fresh by done. rewrite Hl.
    intros [= <-]. split; [done|apply lookup_insert_eq].
Qed.

Lemma callback_handler_keeps `{Material, NetURL} (cb : inbound) (c : captured) :
  Headers (callback_handler cb c).1.1 = Headers c.1 ∧
  Form (callback_handler cb c).1.1 = Form c.1 ∧
  JARM (callback_handler cb c).1.1 = JARM c.1 ∧
  Key_ (callback_handler cb c).1.1 = Key_ c.1 ∧
  Cert (callback_handler cb c).1.1 = Cert c.1.
Proof. unfold callback_handler. by case_decide. Qed.

Lemma serve_keeps `{Material, NetURL} (rs : list inbound) (c : captured) :
  Headers (serve rs c).1.1 = Headers c.1 ∧
  Form (serve rs c).1.1 = Form c.1 ∧
  JARM (serve rs c).1.1 = JARM c.1 ∧
  Key_ (serve rs c).1.1 = Key_ c.1 ∧
  Cert (serve rs c).1.1 = Cert c.1.
Proof.
  revert c. induction rs as [|cb rs IH]; intros c; simpl; [done|].
  pose proof (callback_handler_keeps cb c) as (?&?&?&?&?).
  destruct (callback_handler cb c) as [c1 w].
  specialize (IH c1) as (?&?&?&?&?).
  destruct (serve rs c1) as [c2 ws]. simpl in *.
  split_and!; congruence.
Qed.

(** ** From the callback to the verifier *)

Lemma serve_URL `{Material, NetURL} (rs : list inbound) (c : captured) :
  rs ≠ [] → is_Some (URL_ (serve rs c).1.1).
Proof.
  intros Hne. destruct (exists_last Hne) as (before & last & ->).
  rewrite serve_app. cbn [fst].
  destruct (serve_one last (serve before c).1) as (_ & -> & _). by eexists.
Qed.

(** X11. The Request [WaitForCallback] returns after serving a callback
    has a URL, so the lookup of [response] with which [ParseJARM] starts
    does not dereference nil: it yields the [response] parameter of the
    callback's query, and when the callback carries none, [ParseJARM]
    returns nil and leaves the Request as it is, whatever the keys, none
    being consulted.  The Request returned when the listener failed to
    start is the zero Request, on which that lookup, and [ParseJARM] with
    it, panics. *)
Theorem WaitForCallback_then_ParseJARM `{JOSE, NetURL} (addr : string)
    (mux mux' : ServeMux) (env : arrivals) (srv : http_Server)
    (request : Request) (err : option error) (ws : list written)
    (signingKey encryptionKey : option Key) :
  WaitForCallback addr mux env = (Ret (srv, Returned request err ws), mux') →
  (listen_error env = None →
   ∃ u, URL_ request = Some u ∧
     Get request "response" = Ret (Values_Get (URL_Query u) "response") ∧
     (Values_Get (URL_Query u) "response" = "" →
      ParseJARM request signingKey encryptionKey = (Ret None, request))) ∧
  (is_Some (listen_error env) →
   request = zero_Request ∧
   Get request "response" = Panic nil_dereference ∧
   ParseJARM request signingKey encryptionKey = (Panic nil_dereference, request)).
Proof.
  intros HW.
  destruct (WaitForCallback_Ret_registered _ _ _ _ _ HW) as [Hfree ->].
  revert HW. unfold WaitForCallback.
  rewrite http_HandleFunc_fresh by done.
  destruct (listen_error env) as [serr|].
  { intros [= _ <- _ _]. split; [done|]. intros _. split; [done|].
    unfold ParseJARM, Get. simpl. by rewrite lookup_empty. }
  destruct (callbacks env) as [|cb rs] eqn:Hcb; [done|].
  pose proof (serve_URL (cb :: rs) (zero_Request, None)) as HU.
  pose proof (serve_keeps (cb :: rs) (zero_Request, None)) as (_ & HF & HJ & _).
  destruct (serve (cb :: rs) (zero_Request, None)) as [[request' err'] ws'].
  intros [= _ <- _ _]. split; [|by intros [? ?]]. intros _.
  destruct HU as [u Hu]; [done|]. simpl in Hu, HF, HJ.
  assert (Get request' "response" = Ret (Values_Get (URL_Query u) "response"))
    as HG.
  { unfold Get. rewrite HJ, lookup_empty, Hu, HF. simpl.
    case_decide as Hv; [by rewrite Hv|done]. }
  exists u. split; [done|]. split; [done|].
  intros Hv. unfold ParseJARM. rewrite HG, Hv. simpl.
  f_equal. destruct request'. simpl in HJ. by rewrite HJ.
Qed.

(** X12. Of a callback the handler keeps the method and the URL and
    nothing else: the Request [WaitForCallback] returns has no headers, a
    nil form, an empty claim map, no key and no certificate.  So [Get] on it
    yields the query parameter of the callback's URL, or the empty string,
    and never anything a callback carried in its body. *)
Theorem WaitForCallback_keeps_query_only `{Material, NetURL} (addr : string)
    (mux mux' : ServeMux) (env : arrivals) (srv : http_Server)
    (request : Request) (err : option error) (ws : list written) :
  WaitForCallback addr mux env = (Ret (srv, Returned request err ws), mux') →
  Headers request = ∅ ∧ Form request = None ∧ JARM request = ∅ ∧
  Key_ request = None ∧ Cert request = None ∧
  ∀ u key, URL_ request = Some u →
    Get request key = Ret (Values_Get (URL_Query u) key).
Proof.
  intros HW.
  assert (Headers request = ∅ ∧ Form request = None ∧ JARM request = ∅ ∧
          Key_ request = None ∧ Cert request = None) as (HH & HF & HJ & HK & HC).
  { revert HW. unfold WaitForCallback.
    destruct (http_HandleFunc mux "/callback" addr) as [mux1|]; [|done].
    destruct (listen_error env); [by intros [= _ <- _ _]|].
    destruct (callbacks env) as [|cb rs]; [done|].
    pose proof (serve_keeps (cb :: rs) (zero_Request, None)) as Hk.
    destruct (serve (cb :: rs) (zero_Request, None)) as [[request' err'] ws'].
    by intros [= _ <- _ _]. }
  split_and!; try done.
  intros u key Hu. unfold Get. rewrite HJ, lookup_empty, Hu, HF. simpl.
  case_decide as Hv; [by rewrite Hv|done].
Qed.

(** ** [RequestAuthorization]: what it reads *)

(** X13. Of the client configuration [RequestAuthorization] reads the
    client identifier alone, and of the server configuration the
    authorization endpoint alone: the client secret, the grant type, the
    authentication method and the issuer have no part in the request it
    returns, its error or the identifiers it draws. *)
Theorem RequestAuthorization_reads `{Material, NetURL, ShortUUID} (addr : string)
    (cconfig cconfig' : ClientConfig) (sconfig sconfig' : ServerConfig)
    (g : Entropy) :
  ClientID cconfig = ClientID cconfig' →
  AuthorizationEndpoint sconfig = AuthorizationEndpoint sconfig' →
  RequestAuthorization addr cconfig sconfig g
  = RequestAuthorization addr cconfig' sconfig' g.
Proof.
  intros Hc Hs. unfold RequestAuthorization, authorization_values.
  by rewrite Hc, Hs.
Qed.

(** ** [Request.Get] after [Request.ParseJARM] *)

(** X14. On the Request [ParseJARM] leaves behind, [Get] returns the
    string claim of the map where the key has one, whatever the URL and the
    form carry under that key; for every other key it still returns what
    the query or the form of the Request carried before the run. *)
Theorem Get_after_ParseJARM `{JOSE, NetURL} (r r' : Request)
    (signingKey encryptionKey : option Key) (x : option error) :
  ParseJARM r signingKey encryptionKey = (Ret x, r') →
  (∀ key v, JARM r' !! key = Some (JStr v) → Get r' key = Ret v) ∧
  (∀ key, no_string_claim (JARM r') key →
     URL_ r' = URL_ r ∧ Form r' = Form r ∧
     Get r' key = Get (set_JARM r ∅) key).
Proof.
  intros HP. pose proof (ParseJARM_frame _ _ _ _ _ HP) as Hr'.
  split.
  - intros key v. apply Get_claim.
  - intros key Hno.
    assert (URL_ r' = URL_ r ∧ Form r' = Form r) as [HU HF] by (by rewrite Hr').
    split; [done|]. split; [done|].
    rewrite (Get_no_claim r') by done.
    rewrite (Get_no_claim (set_JARM r ∅)) by apply no_string_claim_empty.
    simpl. by rewrite HU, HF.
Qed.

(** * The properties on the sample platform *)

Import Demo Samples.

(** C10 at the zero Request: no claim, no URL, and [ParseJARM] panics. *)
Lemma Get_total_only_with_URL_witness :
  URL_ zero_Request = None ∧
  no_string_claim (JARM zero_Request) "response" ∧
  Get zero_Request "response" = Panic nil_dereference ∧
  ParseJARM zero_Request (Some "sig-key") None
  = (Panic nil_dereference, zero_Request).
Proof.
  destruct (Get_total_only_with_URL zero_Request "response") as (_ & _ & HG & HP).
  split; [reflexivity|]. split; [apply no_string_claim_empty|].
  split.
  - apply HG; [reflexivity|apply no_string_claim_empty].
  - apply HP; [reflexivity|apply no_string_claim_empty].
Defined.

(** C3 on a response that is no token at all, and on a nested token
    presented without a decryption key. *)
Lemma ParseJARM_fails_closed_witness :
  (Get (callback_request "response=garbage") "response" = Ret "garbage" ∧
   "garbage" ≠ "" ∧
   ParseJARM (callback_request "response=garbage") (Some "sig-key") (Some "enc-key")
   = (Ret (Some (ErrWrap
                   (ErrMulti
                      (ErrExt "go-jose/go-jose: compact JWE format must have five parts")
                      (ErrExt "go-jose/go-jose: compact JWS format must have three parts"))
                   "failed to parse JARM response")),
      set_JARM (callback_request "response=garbage") ∅)) ∧
  (Get (callback_request "response=jwe.code") "response" = Ret "jwe.code" ∧
   ParseJARM (callback_request "response=jwe.code") (Some "sig-key") None
   = (Ret (Some (ErrNew "no encryption key path")),
      set_JARM (callback_request "response=jwe.code") ∅)).
Proof.
  split.
  - assert (Get (callback_request "response=garbage") "response" = Ret "garbage")
      as HG by reflexivity.
    assert ("garbage" ≠ "") as Hne by discriminate.
    split; [exact HG|]. split; [exact Hne|].
    destruct (ParseJARM_fails_closed (callback_request "response=garbage")
                "garbage" (Some "sig-key") (Some "enc-key") HG Hne) as (Hboth & _).
    apply Hboth; reflexivity.
  - assert (Get (callback_request "response=jwe.code") "response" = Ret "jwe.code")
      as HG by reflexivity.
    assert ("jwe.code" ≠ "") as Hne by discriminate.
    split; [exact HG|].
    destruct (ParseJARM_fails_closed (callback_request "response=jwe.code")
                "jwe.code" (Some "sig-key") None HG Hne) as (_ & _ & Hnested & _).
    apply (Hnested (mk_nested "enc-key" code_token)). reflexivity.
Defined.

(** C6 refuted: a signed token whose payload names a member twice passes
    the signature check and fails in decoding, after its first member has
    been stored: [ParseJARM] returns the error with [code] in the map. *)
Lemma ParseJARM_error_keeps_claims :
  ∃ r',
    ParseJARM (callback_request "response=jws.duplicate") (Some "sig-key") None
    = (Ret (Some (ErrExt "json: duplicate key in object")), r') ∧
    JARM r' !! "code" = Some (JStr "abc123") ∧
    JARM r' ≠ ∅.
Proof.
  eexists. split; [vm_compute; reflexivity|].
  split; [reflexivity|].
  intros Hempty. apply (f_equal (fun m : Claims => m !! "code")) in Hempty.
  vm_compute in Hempty. discriminate.
Qed.

(** C6 on a signed token that verifies: the map holds its two claims; and
    on the token with the repeated member: the map is the one [Claims] left
    when it failed. *)
Lemma ParseJARM_claim_map_witness :
  (∃ r',
     Get (callback_request "response=jws.code") "response" = Ret "jws.code" ∧
     ParseJARM (callback_request "response=jws.code") (Some "sig-key") None
     = (Ret None, r') ∧
     r' = set_JARM (callback_request "response=jws.code") (JARM r') ∧
     JARM r' = {[ "code" := JStr "abc123"; "state" := JStr "xyz" ]}) ∧
  (∃ r',
     Get (callback_request "response=jws.duplicate") "response"
     = Ret "jws.duplicate" ∧
     ParseJARM (callback_request "response=jws.duplicate") (Some "sig-key") None
     = (Ret (Some (ErrExt "json: duplicate key in object")), r') ∧
     JARM r' = (Token_Claims duplicate_token "sig-key" ∅).1 ∧
     JARM r' = {[ "code" := JStr "abc123" ]}).
Proof.
  split.
  - eexists.
    assert (Get (callback_request "response=jws.code") "response" = Ret "jws.code")
      as HG by reflexivity.
    split; [exact HG|].
    assert (ParseJARM (callback_request "response=jws.code") (Some "sig-key") None
            = (Ret None,
               set_JARM (callback_request "response=jws.code")
                 {[ "code" := JStr "abc123"; "state" := JStr "xyz" ]}))
      as HP by (vm_compute; reflexivity).
    split; [exact HP|].
    destruct (ParseJARM_claim_map _ _ _ _ _ _ HG HP) as (Hframe & _).
    split; [exact Hframe|reflexivity].
  - eexists.
    assert (Get (callback_request "response=jws.duplicate") "response"
            = Ret "jws.duplicate") as HG by reflexivity.
    split; [exact HG|].
    assert (ParseJARM (callback_request "response=jws.duplicate")
              (Some "sig-key") None
            = (Ret (Some (ErrExt "json: duplicate key in object")),
               set_JARM (callback_request "response=jws.duplicate")
                 {[ "code" := JStr "abc123" ]}))
      as HP by (vm_compute; reflexivity).
    split; [exact HP|].
    destruct (ParseJARM_claim_map _ _ _ _ _ _ HG HP) as (_ & _ & Hrun & _).
    destruct Hrun as (_ & _ & Hclaims); [discriminate|].
    destruct (Hclaims duplicate_token "sig-key" eq_refl eq_refl) as (_ & Hmap).
    split; [exact Hmap|reflexivity].
Defined.

(** C7 refuted: the verified claims of this token include a string
    [response]; the second run reads it in place of the query parameter and
    fails, leaving the map empty. *)
Lemma ParseJARM_second_run_differs :
  ∃ r1 r2,
    ParseJARM (callback_request "response=jws.response") (Some "sig-key") None
    = (Ret None, r1) ∧
    JARM r1 = {[ "code" := JStr "abc123"; "response" := JStr "done" ]} ∧
    Get r1 "response" = Ret "done" ∧
    ParseJARM r1 (Some "sig-key") None
    = (Ret (Some (ErrWrap
                    (ErrMulti
                       (ErrExt "go-jose/go-jose: compact JWE format must have five parts")
                       (ErrExt "go-jose/go-jose: compact JWS format must have three parts"))
                    "failed to parse JARM response")), r2) ∧
    JARM r2 = ∅.
Proof.
  eexists _, _. split; [vm_compute; reflexivity|].
  split; [reflexivity|]. split; [reflexivity|].
  split; [vm_compute; reflexivity|reflexivity].
Qed.

(** C7 on a token without a [response] claim: the second run repeats the
    first. *)
Lemma ParseJARM_idempotent_witness :
  ∃ r1,
    no_string_claim (JARM (callback_request "response=jws.code")) "response" ∧
    ParseJARM (callback_request "response=jws.code") (Some "sig-key") None
    = (Ret None, r1) ∧
    no_string_claim (JARM r1) "response" ∧
    JARM r1 = {[ "code" := JStr "abc123"; "state" := JStr "xyz" ]} ∧
    ParseJARM r1 (Some "sig-key") None = (Ret None, r1).
Proof.
  eexists.
  assert (ParseJARM (callback_request "response=jws.code") (Some "sig-key") None
          = (Ret None,
             set_JARM (callback_request "response=jws.code")
               {[ "code" := JStr "abc123"; "state" := JStr "xyz" ]}))
    as HP by (vm_compute; reflexivity).
  assert (no_string_claim
            (JARM (set_JARM (callback_request "response=jws.code")
                     {[ "code" := JStr "abc123"; "state" := JStr "xyz" ]}))
            "response") as Hno1 by (intros v; vm_compute; discriminate).
  split; [apply no_string_claim_empty|]. split; [exact HP|].
  split; [exact Hno1|]. split; [reflexivity|].
  destruct (ParseJARM_idempotent (callback_request "response=jws.code")
              (set_JARM (callback_request "response=jws.code")
                 {[ "code" := JStr "abc123"; "state" := JStr "xyz" ]})
              (Some "sig-key") None) as (_ & _ & _ & Hidem).
  apply Hidem; [apply no_string_claim_empty|exact HP|exact Hno1].
Defined.

(** C4 on a Request under construction: [client_secret_post] writes the
    two form fields, and the TLS methods [client_id] and the leaf
    certificate. *)
Lemma AuthenticateClient_sets_exactly_witness :
  (Form fresh_request = Some ∅ ∧
   AuthenticateClient (TokenEndpoint server) (MTLSTokenEndpoint server)
     (client ClientSecretPostAuthMethod) server (http_client (inr granted))
     fresh_request
   = (Ret ("https://as.example/token", None),
      set_Form fresh_request
        (Some {[ "client_id" := ["app"]; "client_secret" := ["s3cret"] ]}))) ∧
  (leaf_certificate (http_client (inr granted)) = Some (Some "leaf-der") ∧
   AuthenticateClient (TokenEndpoint server) (MTLSTokenEndpoint server)
     (client TLSClientAuthMethod) server (http_client (inr granted))
     fresh_request
   = (Ret ("https://mtls.as.example/token", None),
      set_Cert (set_Form fresh_request (Some {[ "client_id" := ["app"] ]}))
        (Some "leaf-der"))).
Proof.
  split.
  - split; [reflexivity|].
    destruct (AuthenticateClient_sets_exactly fresh_request
                (TokenEndpoint server) (MTLSTokenEndpoint server)
                (client ClientSecretPostAuthMethod) server
                (http_client (inr granted))) as (_ & Hpost & _).
    destruct (Hpost eq_refl) as (_ & Hset).
    rewrite (Hset ∅ eq_refl). vm_compute. reflexivity.
  - split; [reflexivity|].
    destruct (AuthenticateClient_sets_exactly fresh_request
                (TokenEndpoint server) (MTLSTokenEndpoint server)
                (client TLSClientAuthMethod) server
                (http_client (inr granted))) as (_ & _ & _ & _ & Htls & _).
    destruct (Htls (or_introl eq_refl)) as (_ & _ & _ & Hset).
    rewrite (Hset ∅ (Some "leaf-der") eq_refl eq_refl). vm_compute. reflexivity.
Defined.

(** C8 on the two redirects of the specification. *)
Lemma WaitForCallback_captures_witness :
  (∅ : ServeMux) !! "/callback" = None ∧
  (∃ request w,
     WaitForCallback "127.0.0.1:9876" ∅
       (mk_arrivals None [redirect "error=access_denied&error_description=D"])
     = (Ret (mk_http_Server "127.0.0.1:9876",
             Returned request
               (Some (ErrProvider (mkError "access_denied" "D" "" ""))) [w]),
        {[ "/callback" := "127.0.0.1:9876" ]}) ∧
     w_Status w = 400%Z) ∧
  (∃ request w,
     WaitForCallback "127.0.0.1:9876" ∅
       (mk_arrivals None [redirect "code=abc123"])
     = (Ret (mk_http_Server "127.0.0.1:9876", Returned request None [w]),
        {[ "/callback" := "127.0.0.1:9876" ]}) ∧
     w_Status w = 200%Z ∧
     Get request "code" = Ret "abc123").
Proof.
  assert ((∅ : ServeMux) !! "/callback" = None) as Hfree by reflexivity.
  split; [exact Hfree|]. split.
  - destruct (WaitForCallback_captures "127.0.0.1:9876" ∅
                (redirect "error=access_denied&error_description=D") Hfree)
      as (request & err & w & Heq & _ & _ & Herr & _).
    destruct Herr as [-> Hw]; [vm_compute; discriminate|].
    exists request, w. split; [exact Heq|exact Hw].
  - destruct (WaitForCallback_captures "127.0.0.1:9876" ∅
                (redirect "code=abc123") Hfree)
      as (request & err & w & Heq & _ & _ & _ & Hok).
    destruct (Hok eq_refl) as (-> & Hw & Hq).
    exists request, w. split; [exact Heq|]. split; [exact Hw|].
    apply (Hq "code"). vm_compute. discriminate.
Defined.

(** C2 refuted: the first invocation leaves its handler in the table of
    the process, and a second invocation, for another address, panics on
    registering [/callback] again. *)
Lemma WaitForCallback_second_invocation_panics :
  ∃ how mux,
    WaitForCallback "127.0.0.1:9001" ∅ (mk_arrivals None [redirect "code=abc123"])
    = (Ret (mk_http_Server "127.0.0.1:9001", how), mux) ∧
    mux !! "/callback" = Some "127.0.0.1:9001" ∧
    WaitForCallback "127.0.0.1:9002" mux (mk_arrivals None [redirect "code=def456"])
    = (Panic "http: multiple registrations for /callback", mux).
Proof.
  eexists _, _. split; [vm_compute; reflexivity|].
  split; [reflexivity|]. vm_compute. reflexivity.
Qed.

(** C2 on the first invocation of a process. *)
Lemma WaitForCallback_registers_globally_witness :
  (∅ : ServeMux) !! "/callback" = None ∧
  ∃ how,
    WaitForCallback "127.0.0.1:9001" ∅ (mk_arrivals None [redirect "code=abc123"])
    = (Ret (mk_http_Server "127.0.0.1:9001", how),
       {[ "/callback" := "127.0.0.1:9001" ]}).
Proof.
  assert ((∅ : ServeMux) !! "/callback" = None) as Hfree by reflexivity.
  split; [exact Hfree|].
  destruct (WaitForCallback_registers_globally "127.0.0.1:9001" ∅
              (mk_arrivals None [redirect "code=abc123"]) Hfree)
    as (how & Heq & _).
  exists how. exact Heq.
Defined.

(** C9 on the sample server, the generator at its start. *)
Lemma RequestAuthorization_request_witness :
  url_Parse (AuthorizationEndpoint server)
  = inr (mkURL "" "" "https://as.example/authorize" "") ∧
  NoDup (draws 4 seed) ∧
  ∃ r1 g1 r2 g2,
    RequestAuthorization "127.0.0.1:9876" (client ClientSecretBasicAuthMethod)
      server seed = ((r1, None), g1) ∧
    RequestAuthorization "127.0.0.1:9876" (client ClientSecretBasicAuthMethod)
      server g1 = ((r2, None), g2) ∧
    URL_ r1 ≠ URL_ r2.
Proof.
  assert (NoDup (draws 4 seed)) as Hnd.
  { vm_compute. repeat constructor; rewrite ?not_elem_of_cons;
      repeat split; try discriminate; apply not_elem_of_nil. }
  split; [reflexivity|]. split; [exact Hnd|].
  destruct (RequestAuthorization_request "127.0.0.1:9876"
              (client ClientSecretBasicAuthMethod) server seed)
    as (_ & _ & Huniq).
  destruct (Huniq (mkURL "" "" "https://as.example/authorize" "") eq_refl Hnd)
    as (r1 & s1 & n1 & g1 & r2 & s2 & n2 & g2 & H1 & H2 & _).
  exists r1, g1, r2, g2. split; [exact H1|]. split; [exact H2|].
  revert H1 H2. vm_compute. intros [= <- <-] [= <- <-]. discriminate.
Defined.

(** C5 on the two answers of the specification and on a body that is not
    JSON. *)
Lemma RequestToken_response_witness :
  ∃ request req,
    token_request (client ClientSecretBasicAuthMethod) server
      [WithAuthorizationCode "abc123"] = (request, inr req) ∧
    RequestToken (client ClientSecretBasicAuthMethod) server
      (http_client (inr refused)) [WithAuthorizationCode "abc123"]
    = (request, zero_TokenResponse,
       Some (ErrProvider (mkError "invalid_grant" "" "" ""))) ∧
    RequestToken (client ClientSecretBasicAuthMethod) server
      (http_client (inr granted)) [WithAuthorizationCode "abc123"]
    = (request, mkTokenResponse "T" 3600 "" "" "" "" "Bearer", None) ∧
    RequestToken (client ClientSecretBasicAuthMethod) server
      (http_client (inr garbled)) [WithAuthorizationCode "abc123"]
    = (request, zero_TokenResponse,
       Some (ErrWrap (ErrExt "invalid character looking for beginning of value")
               "failed to parse exchange response")).
Proof.
  destruct (token_request (client ClientSecretBasicAuthMethod) server
              [WithAuthorizationCode "abc123"]) as [request [err|req]] eqn:Hreq;
    [vm_compute in Hreq; discriminate|].
  assert (set_Headers request (req_Header req) = request) as Hsame.
  { pose proof Hreq as Hc. vm_compute in Hc. injection Hc as <- <-. reflexivity. }
  exists request, req. split; [reflexivity|].
  split; [|split].
  - destruct (RequestToken_response (client ClientSecretBasicAuthMethod) server
                (http_client (inr refused)) [WithAuthorizationCode "abc123"]
                request req Hreq) as (Hrefused & _).
    destruct (Hrefused refused eq_refl) as (-> & _); [discriminate|].
    simpl. rewrite Hsame. reflexivity.
  - destruct (RequestToken_response (client ClientSecretBasicAuthMethod) server
                (http_client (inr granted)) [WithAuthorizationCode "abc123"]
                request req Hreq) as (_ & Hgranted & _).
    rewrite (Hgranted granted (mkTokenResponse "T" 3600 "" "" "" "" "Bearer"))
      by reflexivity.
    simpl. rewrite Hsame. reflexivity.
  - destruct (RequestToken_response (client ClientSecretBasicAuthMethod) server
                (http_client (inr garbled)) [WithAuthorizationCode "abc123"]
                request req Hreq) as (_ & _ & Hgarbled & _).
    destruct (Hgarbled garbled zero_TokenResponse
                "invalid character looking for beginning of value")
      as (-> & _); [reflexivity..|].
    simpl. rewrite Hsame. reflexivity.
Defined.

(** C1 refuted: for [tls_client_auth] the request of the specification
    goes to the mutual-TLS endpoint and carries [client_id]; the request
    [RequestToken] builds goes to the token endpoint without it. *)
Lemma RequestToken_bypasses_authenticator :
  (∃ request req,
     token_request (client TLSClientAuthMethod) server
       [WithAuthorizationCode "abc123"] = (request, inr req) ∧
     Path (req_URL req) = "https://as.example/token" ∧
     Form_lookup (Form request) "client_id" = None) ∧
  (∃ request req,
     spec_token_request (client TLSClientAuthMethod) server
       (http_client (inr granted)) [WithAuthorizationCode "abc123"]
     = Ret (request, inr req) ∧
     Path (req_URL req) = "https://mtls.as.example/token" ∧
     Form_lookup (Form request) "client_id" = Some ["app"]) ∧
  spec_token_request (client TLSClientAuthMethod) server
    (http_client (inr granted)) [WithAuthorizationCode "abc123"]
  ≠ Ret (token_request (client TLSClientAuthMethod) server
           [WithAuthorizationCode "abc123"]).
Proof.
  split; [|split].
  - eexists _, _. split; [vm_compute; reflexivity|]. split; reflexivity.
  - eexists _, _. split; [vm_compute; reflexivity|]. split; reflexivity.
  - intros Heq.
    apply (f_equal (fun o : outcome (Request * (error + http_Request)) =>
                      match o with
                      | Ret (_, inr req) => Path (req_URL req)
                      | _ => ""
                      end)) in Heq.
    vm_compute in Heq. discriminate.
Qed.

(** C1 on [client_secret_post] and on [client_secret_basic]: the request
    of the code is the request of the specification. *)
Lemma RequestToken_request_witness :
  ((ClientSecretPostAuthMethod ∉
      [ClientSecretJwtAuthMethod; PrivateKeyJwtAuthMethod; TLSClientAuthMethod;
       SelfSignedTLSAuthMethod]) ∧
   spec_token_request (client ClientSecretPostAuthMethod) server
     (http_client (inr granted))
     [WithAuthorizationCode "abc123"; WithRedirectURL "http://127.0.0.1:9876/callback"]
   = Ret (token_request (client ClientSecretPostAuthMethod) server
            [WithAuthorizationCode "abc123";
             WithRedirectURL "http://127.0.0.1:9876/callback"])) ∧
  ((ClientSecretBasicAuthMethod ∉
      [ClientSecretJwtAuthMethod; PrivateKeyJwtAuthMethod; TLSClientAuthMethod;
       SelfSignedTLSAuthMethod]) ∧
   spec_token_request (client ClientSecretBasicAuthMethod) server
     (http_client (inr granted)) [WithAuthorizationCode "abc123"]
   = Ret (token_request (client ClientSecretBasicAuthMethod) server
            [WithAuthorizationCode "abc123"])).
Proof.
  split.
  - assert (ClientSecretPostAuthMethod ∉
              [ClientSecretJwtAuthMethod; PrivateKeyJwtAuthMethod;
               TLSClientAuthMethod; SelfSignedTLSAuthMethod]) as Hm.
    { rewrite !not_elem_of_cons. repeat split; try discriminate.
      apply not_elem_of_nil. }
    split; [exact Hm|].
    destruct (RequestToken_request (client ClientSecretPostAuthMethod) server
                (http_client (inr granted))
                [WithAuthorizationCode "abc123";
                 WithRedirectURL "http://127.0.0.1:9876/callback"])
      as (_ & _ & _ & Hagree).
    apply Hagree. exact Hm.
  - assert (ClientSecretBasicAuthMethod ∉
              [ClientSecretJwtAuthMethod; PrivateKeyJwtAuthMethod;
               TLSClientAuthMethod; SelfSignedTLSAuthMethod]) as Hm.
    { rewrite !not_elem_of_cons. repeat split; try discriminate.
      apply not_elem_of_nil. }
    split; [exact Hm|].
    destruct (RequestToken_request (client ClientSecretBasicAuthMethod) server
                (http_client (inr granted)) [WithAuthorizationCode "abc123"])
      as (_ & _ & _ & Hagree).
    apply Hagree. exact Hm.
Defined.

(** ** The further properties on the sample platform *)

(** X5 on [client_secret_post]: the second call finds the two fields set
    and leaves them. *)
Lemma AuthenticateClient_twice_witness :
  AuthMethod (client ClientSecretPostAuthMethod) ≠ ClientSecretJwtAuthMethod ∧
  AuthMethod (client ClientSecretPostAuthMethod) ≠ PrivateKeyJwtAuthMethod ∧
  ∃ r1,
    AuthenticateClient (TokenEndpoint server) (MTLSTokenEndpoint server)
      (client ClientSecretPostAuthMethod) server (http_client (inr granted))
      fresh_request
    = (Ret ("https://as.example/token", None), r1) ∧
    Form r1 = Some {[ "client_id" := ["app"]; "client_secret" := ["s3cret"] ]} ∧
    AuthenticateClient (TokenEndpoint server) (MTLSTokenEndpoint server)
      (client ClientSecretPostAuthMethod) server (http_client (inr granted)) r1
    = (Ret ("https://as.example/token", None), r1).
Proof.
  assert (AuthMethod (client ClientSecretPostAuthMethod) ≠ ClientSecretJwtAuthMethod)
    as Hj by discriminate.
  assert (AuthMethod (client ClientSecretPostAuthMethod) ≠ PrivateKeyJwtAuthMethod)
    as Hp by discriminate.
  split; [exact Hj|]. split; [exact Hp|].
  assert (AuthenticateClient (TokenEndpoint server) (MTLSTokenEndpoint server)
            (client ClientSecretPostAuthMethod) server (http_client (inr granted))
            fresh_request
          = (Ret ("https://as.example/token", None),
             set_Form fresh_request
               (Some {[ "client_id" := ["app"]; "client_secret" := ["s3cret"] ]})))
    as HA by (vm_compute; reflexivity).
  eexists. split; [exact HA|]. split; [reflexivity|].
  exact (AuthenticateClient_twice _ _ _ _ _ _ _ _ Hj Hp HA).
Defined.

(** X6 on the zero Request: [client_secret_post] panics at once, and
    [client_secret_jwt] after it has stored the signing key. *)
Lemma AuthenticateClient_nil_Form_witness :
  Form zero_Request = None ∧
  AuthenticateClient (TokenEndpoint server) (MTLSTokenEndpoint server)
    (client ClientSecretPostAuthMethod) server (http_client (inr granted))
    zero_Request
  = (Panic nil_map_write, zero_Request) ∧
  AuthenticateClient (TokenEndpoint server) (MTLSTokenEndpoint server)
    (client ClientSecretJwtAuthMethod) server (http_client (inr granted))
    zero_Request
  = (Panic nil_map_write, set_Key zero_Request (Some "s3cret")).
Proof.
  assert (Form zero_Request = None) as HF by reflexivity.
  split; [exact HF|]. split.
  - destruct (AuthenticateClient_nil_Form zero_Request (TokenEndpoint server)
                (MTLSTokenEndpoint server) (client ClientSecretPostAuthMethod)
                server (http_client (inr granted)) HF) as (Hwrite & _).
    apply Hwrite. by left.
  - destruct (AuthenticateClient_nil_Form zero_Request (TokenEndpoint server)
                (MTLSTokenEndpoint server) (client ClientSecretJwtAuthMethod)
                server (http_client (inr granted)) HF) as (_ & Hjwt).
    destruct (Hjwt (or_introl eq_refl)) as (Hsigned & _).
    apply (Hsigned "assertion:app:s3cret"). reflexivity.
Defined.

(** X7 on a client whose transport has no TLS configuration. *)
Lemma AuthenticateClient_TLS_transport_witness :
  (AuthMethod (client TLSClientAuthMethod) = TLSClientAuthMethod ∨
   AuthMethod (client TLSClientAuthMethod) = SelfSignedTLSAuthMethod) ∧
  Form fresh_request = Some ∅ ∧
  AuthenticateClient (TokenEndpoint server) (MTLSTokenEndpoint server)
    (client TLSClientAuthMethod) server
    (mk_http_Client (StdTransport (mk_http_Transport None)) (fun _ => inr granted)
       req_Header)
    fresh_request
  = (Panic nil_dereference,
     set_Form fresh_request (Some {[ "client_id" := ["app"] ]})).
Proof.
  assert (AuthMethod (client TLSClientAuthMethod) = TLSClientAuthMethod ∨
          AuthMethod (client TLSClientAuthMethod) = SelfSignedTLSAuthMethod)
    as Hm by (by left).
  assert (Form fresh_request = Some ∅) as HF by reflexivity.
  split; [exact Hm|]. split; [exact HF|].
  destruct (AuthenticateClient_TLS_transport fresh_request ∅ (TokenEndpoint server)
              (MTLSTokenEndpoint server) (client TLSClientAuthMethod) server
              (mk_http_Client (StdTransport (mk_http_Transport None))
                 (fun _ => inr granted) req_Header) Hm HF) as (_ & Hnil & _).
  rewrite (Hnil (mk_http_Transport None) eq_refl eq_refl).
  vm_compute. reflexivity.
Defined.

(** X8 on a signed-only token, with and without a decryption key, and on
    a nested token met with the wrong key. *)
Lemma ParseJARM_key_not_consulted_witness :
  (Get (callback_request "response=jws.code") "response" = Ret "jws.code" ∧
   ParseJARM (callback_request "response=jws.code") (Some "sig-key") None
   = ParseJARM (callback_request "response=jws.code") (Some "sig-key")
       (Some "enc-key")) ∧
  (Get (callback_request "response=jwe.code") "response" = Ret "jwe.code" ∧
   ParseJARM (callback_request "response=jwe.code") None (Some "other-key")
   = (Ret (Some (ErrWrap
                   (ErrExt "go-jose/go-jose: error in cryptographic primitive")
                   "failed to decrypt encrypted JARM response")),
      set_JARM (callback_request "response=jwe.code") ∅)).
Proof.
  split.
  - assert (Get (callback_request "response=jws.code") "response" = Ret "jws.code")
      as HG by reflexivity.
    split; [exact HG|].
    destruct (ParseJARM_key_not_consulted (callback_request "response=jws.code")
                "jws.code" (Some "sig-key") None HG) as (Hany & _).
    apply (Hany "go-jose/go-jose: compact JWE format must have five parts").
    reflexivity.
  - assert (Get (callback_request "response=jwe.code") "response" = Ret "jwe.code")
      as HG by reflexivity.
    split; [exact HG|].
    destruct (ParseJARM_key_not_consulted (callback_request "response=jwe.code")
                "jwe.code" None (Some "other-key") HG) as (_ & _ & Hdec).
    apply (Hdec (mk_nested "enc-key" code_token)); [discriminate|reflexivity..].
Defined.

(** X9 on a refused redirect followed by a granted one: the URL of the
    second, the error of the first. *)
Lemma WaitForCallback_several_callbacks_witness :
  (∅ : ServeMux) !! "/callback" = None ∧
  ∃ request ws,
    WaitForCallback "127.0.0.1:9876" ∅
      (mk_arrivals None [redirect "error=access_denied"; redirect "code=abc123"])
    = (Ret (mk_http_Server "127.0.0.1:9876",
            Returned request
              (Some (ErrProvider (mkError "access_denied" "" "" ""))) ws),
       {[ "/callback" := "127.0.0.1:9876" ]}) ∧
    URL_ request = Some (mkURL "" "" "/callback" "code=abc123") ∧
    length ws = 2%nat.
Proof.
  assert ((∅ : ServeMux) !! "/callback" = None) as Hfree by reflexivity.
  split; [exact Hfree|].
  destruct (WaitForCallback_several_callbacks "127.0.0.1:9876" ∅
              [redirect "error=access_denied"] (redirect "code=abc123") Hfree)
    as (request & err & ws & Heq & Hlen & _ & HU & _ & Hlast).
  assert (err = Some (ErrProvider (mkError "access_denied" "" "" ""))) as ->.
  { apply (Hlast [] (redirect "error=access_denied") [redirect "code=abc123"]).
    - reflexivity.
    - unfold carries_error. vm_compute. discriminate.
    - constructor; [|constructor]. intros Hc. apply Hc. vm_compute. reflexivity. }
  exists request, ws. split; [exact Heq|]. split; [exact HU|exact Hlen].
Defined.

(** X10 on a listener that finds its address taken: the next invocation
    panics. *)
Lemma WaitForCallback_once_per_process_witness :
  ∃ mux',
    WaitForCallback "127.0.0.1:9001" ∅
      (mk_arrivals (Some "listen tcp 127.0.0.1:9001: bind: address already in use") [])
    = (Ret (mk_http_Server "127.0.0.1:9001",
            Returned zero_Request
              (Some (ErrExt "listen tcp 127.0.0.1:9001: bind: address already in use"))
              []), mux') ∧
    WaitForCallback "127.0.0.1:9002" mux' (mk_arrivals None [redirect "code=abc123"])
    = (Panic "http: multiple registrations for /callback", mux').
Proof.
  eexists.
  assert (WaitForCallback "127.0.0.1:9001" ∅
            (mk_arrivals
               (Some "listen tcp 127.0.0.1:9001: bind: address already in use") [])
          = (Ret (mk_http_Server "127.0.0.1:9001",
                  Returned zero_Request
                    (Some (ErrExt
                             "listen tcp 127.0.0.1:9001: bind: address already in use"))
                    []), {[ "/callback" := "127.0.0.1:9001" ]}))
    as HW by (vm_compute; reflexivity).
  split; [exact HW|].
  destruct (WaitForCallback_once_per_process _ _ _ _ _ HW) as (Hlater & _).
  apply Hlater.
Defined.

(** X11 on a granted redirect without a [response] parameter:
    [ParseJARM] on the Request returned is a no-op. *)
Lemma WaitForCallback_then_ParseJARM_witness :
  ∃ request ws mux',
    WaitForCallback "127.0.0.1:9876" ∅
      (mk_arrivals None [redirect "code=abc123&state=xyz"])
    = (Ret (mk_http_Server "127.0.0.1:9876", Returned request None ws), mux') ∧
    Get request "response" = Ret "" ∧
    ParseJARM request (Some "sig-key") None = (Ret None, request).
Proof.
  assert (WaitForCallback "127.0.0.1:9876" ∅
            (mk_arrivals None [redirect "code=abc123&state=xyz"])
          = (Ret (mk_http_Server "127.0.0.1:9876",
                  Returned
                    (set_URL (set_Method zero_Request "GET")
                       (Some (mkURL "" "" "/callback" "code=abc123&state=xyz")))
                    None
                    [mk_written 200
                       "Authorization succeeded. You may close this browser."]),
             {[ "/callback" := "127.0.0.1:9876" ]}))
    as HW by (vm_compute; reflexivity).
  destruct (@WaitForCallback_then_ParseJARM material jose net_url
              _ _ _ _ _ _ _ _ (Some "sig-key") None HW)
    as (Hserved & _).
  destruct (Hserved eq_refl) as (u & Hu & HG & HP).
  injection Hu as <-.
  eexists _, _, _. split; [exact HW|]. split; [exact HG|].
  apply HP. reflexivity.
Defined.

(** X12 on a granted redirect: the code is read back from the query, an
    absent parameter reads as the empty string. *)
Lemma WaitForCallback_keeps_query_only_witness :
  ∃ request ws mux',
    WaitForCallback "127.0.0.1:9876" ∅
      (mk_arrivals None [redirect "code=abc123&state=xyz"])
    = (Ret (mk_http_Server "127.0.0.1:9876", Returned request None ws), mux') ∧
    Form request = None ∧
    Get request "code" = Ret "abc123" ∧
    Get request "scope" = Ret "".
Proof.
  assert (WaitForCallback "127.0.0.1:9876" ∅
            (mk_arrivals None [redirect "code=abc123&state=xyz"])
          = (Ret (mk_http_Server "127.0.0.1:9876",
                  Returned
                    (set_URL (set_Method zero_Request "GET")
                       (Some (mkURL "" "" "/callback" "code=abc123&state=xyz")))
                    None
                    [mk_written 200
                       "Authorization succeeded. You may close this browser."]),
             {[ "/callback" := "127.0.0.1:9876" ]}))
    as HW by (vm_compute; reflexivity).
  destruct (WaitForCallback_keeps_query_only _ _ _ _ _ _ _ _ HW)
    as (_ & HF & _ & _ & _ & HGet).
  eexists _, _, _. split; [exact HW|]. split; [exact HF|].
  split; [exact (HGet _ "code" eq_refl)|exact (HGet _ "scope" eq_refl)].
Defined.

(** X13 on two clients that share their identifier and differ in their
    authentication method. *)
Lemma RequestAuthorization_reads_witness :
  ClientID (client ClientSecretBasicAuthMethod)
  = ClientID (client ClientSecretPostAuthMethod) ∧
  RequestAuthorization "127.0.0.1:9876" (client ClientSecretBasicAuthMethod)
    server seed
  = RequestAuthorization "127.0.0.1:9876" (client ClientSecretPostAuthMethod)
      server seed.
Proof.
  split; [reflexivity|].
  apply RequestAuthorization_reads; reflexivity.
Defined.

(** X14 on a verified callback: [code] now comes from the claims, while
    [response] still comes from the query. *)
Lemma Get_after_ParseJARM_witness :
  ∃ r',
    ParseJARM (callback_request "response=jws.code&code=forged") (Some "sig-key") None
    = (Ret None, r') ∧
    Get (callback_request "response=jws.code&code=forged") "code" = Ret "forged" ∧
    Get r' "code" = Ret "abc123" ∧
    Get r' "response" = Ret "jws.code".
Proof.
  assert (ParseJARM (callback_request "response=jws.code&code=forged")
            (Some "sig-key") None
          = (Ret None,
             set_JARM (callback_request "response=jws.code&code=forged")
               {[ "code" := JStr "abc123"; "state" := JStr "xyz" ]}))
    as HP by (vm_compute; reflexivity).
  destruct (Get_after_ParseJARM _ _ _ _ _ HP) as (Hclaim & Hother).
  eexists. split; [exact HP|]. split; [reflexivity|].
  split; [apply Hclaim; reflexivity|].
  destruct (Hother "response") as (_ & _ & ->);
    [intros v; vm_compute; discriminate|reflexivity].
Defined.

(** X3 on a client with a cookie jar: the Request returned shows the
    cookie the client added to the headers, next to those that were
    built. *)
Lemma RequestToken_Request_settled_witness :
  url_Parse (TokenEndpoint server) = inr (mkURL "" "" "https://as.example/token" "") ∧
  Headers (RequestToken (client ClientSecretPostAuthMethod) server
             (mk_http_Client NoRoundTripper (fun _ => inr granted)
                (fun req => <["Cookie" := ["session=1"]]> (req_Header req)))
             [WithAuthorizationCode "abc123"]).1.1
  = {[ "Content-Type" := ["application/x-www-form-urlencoded"];
       "Cookie" := ["session=1"] ]} ∧
  URL_ (RequestToken (client ClientSecretPostAuthMethod) server
          (mk_http_Client NoRoundTripper (fun _ => inr granted)
             (fun req => <["Cookie" := ["session=1"]]> (req_Header req)))
          [WithAuthorizationCode "abc123"]).1.1
  = Some (mkURL "" "" "https://as.example/token" "").
Proof.
  assert (url_Parse (TokenEndpoint server)
          = inr (mkURL "" "" "https://as.example/token" "")) as Hp by reflexivity.
  split; [exact Hp|].
  destruct (RequestToken_Request_settled (client ClientSecretPostAuthMethod) server
              [WithAuthorizationCode "abc123"]) as (_ & _ & Hparsed).
  destruct (Hparsed _
              (mk_http_Client NoRoundTripper (fun _ => inr granted)
                 (fun req => <["Cookie" := ["session=1"]]> (req_Header req)))
              Hp)
    as (_ & _ & HU & _ & _ & _ & req & Hreq & HH & _).
  split; [|exact HU].
  rewrite HH. vm_compute in Hreq. injection Hreq as <-.
  vm_compute. reflexivity.
Defined.
